(** * Retail Orders Dashboard: a shallow embedding of [streamlit_app.py]

    The script has three stages: a connection resolver ([get_collection]),
    a loader that flattens order documents into rows ([load_orders]), and a
    filter and aggregation layer built from dataframe operations.

    Conventions of the embedding.
    - Python values of a document are the inductive [value]; [None] is
      [VNull].  Documents are association lists in key order.
    - Raising is explicit: fallible code returns [result], and code that
      also talks to the database threads the log of network events.
    - Numbers are exact integers in a fixed-point unit (amounts in minor
      currency units); rounding and overflow of machine arithmetic are
      outside the model, so a sum here is the exact sum, and no property
      below equates two different ways of summing.  A null cell of a
      numeric column (NaN) is [None].
    - Timestamps are nanoseconds since the epoch, a date is a day number,
      NaT is [None].
    - The database driver, the datetime parser and [str] on identifiers are
      external; they are the fields of [Env].  The lines that read the
      connection string and the names from the secrets and the environment
      are not modelled: the three strings are arguments of the script. *)

From Stdlib Require Import List ZArith Bool String Ascii Lia QArith.
From Stdlib Require Import Sorted Permutation OrderedTypeEx.
Import ListNotations.

Local Open Scope string_scope.
Local Open Scope list_scope.
Local Open Scope Z_scope.

(* ================================================================== *)
(** ** Python values, exceptions and results *)

Module Py.

#[warnings="-register-all"]
Inductive value : Type :=
| VNull
| VBool (b : bool)
| VNum (n : Z)
| VStr (s : string)
| VDate (t : Z)
| VList (l : list value)
| VDoc (kv : list (string * value)).

Definition dict : Type := list (string * value).

Inductive exn : Type :=
| RuntimeError (msg : string)
| PyMongoError (msg : string)
| AttributeError
| TypeError.

Inductive result (A : Type) : Type :=
| Ok (a : A)
| Raise (e : exn).
Arguments Ok {A} a.
Arguments Raise {A} e.

Definition bind {A B} (r : result A) (k : A -> result B) : result B :=
  match r with
  | Ok a => k a
  | Raise e => Raise e
  end.

Fixpoint mapM {A B} (f : A -> result B) (l : list A) : result (list B) :=
  match l with
  | [] => Ok []
  | x :: l' =>
      bind (f x) (fun y => bind (mapM f l') (fun ys => Ok (y :: ys)))
  end.

(** [d.get(k, default)] on a dict: the first binding of [k]. *)
Fixpoint dict_get (d : dict) (k : string) (default : value) : value :=
  match d with
  | [] => default
  | (k', v) :: d' => if String.eqb k k' then v else dict_get d' k default
  end.

(** [k in d]. *)
Fixpoint dict_has (d : dict) (k : string) : bool :=
  match d with
  | [] => false
  | (k', _) :: d' => String.eqb k k' || dict_has d' k
  end.

(** [v.get(k, default)] on an arbitrary value: only a dict has [get]. *)
Definition attr_get (v : value) (k : string) (default : value) : result value :=
  match v with
  | VDoc kv => Ok (dict_get kv k default)
  | _ => Raise AttributeError
  end.

Fixpoint chars (s : string) : list value :=
  match s with
  | EmptyString => []
  | String c s' => VStr (String c EmptyString) :: chars s'
  end.

(** [for it in v]: lists yield their elements, dicts their keys, strings
    their characters; nothing else is iterable. *)
Definition py_iter (v : value) : result (list value) :=
  match v with
  | VList l => Ok l
  | VDoc kv => Ok (map (fun p => VStr (fst p)) kv)
  | VStr s => Ok (chars s)
  | _ => Raise TypeError
  end.

(** [acc + v] inside [sum(...)]: numbers add, a bool counts as 0 or 1. *)
Definition py_add (acc : Z) (v : value) : result Z :=
  match v with
  | VNum n => Ok (acc + n)
  | VBool b => Ok (acc + Z.b2z b)
  | _ => Raise TypeError
  end.

(** [sum(g(it) for it in its)]: the generator is consumed one element at a
    time, each element is computed and added before the next is looked at. *)
Fixpoint py_sum_gen (g : value -> result value) (acc : Z) (its : list value)
  : result Z :=
  match its with
  | [] => Ok acc
  | it :: rest =>
      bind (g it) (fun v =>
      bind (py_add acc v) (fun acc' => py_sum_gen g acc' rest))
  end.

(** Adding to a set hashes the element: lists and dicts are unhashable. *)
Definition hashable (v : value) : result value :=
  match v with
  | VList _ | VDoc _ => Raise TypeError
  | _ => Ok v
  end.

(** [{g(it) for it in its}] as the sequence of elements added. *)
Fixpoint py_set_gen (g : value -> result value) (its : list value)
  : result (list value) :=
  match its with
  | [] => Ok []
  | it :: rest =>
      bind (g it) (fun v =>
      bind (hashable v) (fun v' =>
      bind (py_set_gen g rest) (fun vs => Ok (v' :: vs))))
  end.

(** The elements must all be [str] for [",".join(sorted(...))] to succeed:
    mixed types do not compare and [join] refuses anything that is not a
    string; each is a [TypeError]. *)
Fixpoint strings_of (vs : list value) : result (list string) :=
  match vs with
  | [] => Ok []
  | VStr s :: vs' => bind (strings_of vs') (fun ss => Ok (s :: ss))
  | _ :: _ => Raise TypeError
  end.

(** A set built from a sequence: one representative of each element.  The
    iteration order of a Python set is unspecified; the first occurrences
    are kept here, and [sorted] below makes the choice irrelevant. *)
Fixpoint py_set (l : list string) : list string :=
  match l with
  | [] => []
  | x :: l' => if existsb (String.eqb x) l' then py_set l' else x :: py_set l'
  end.

(** [sorted]: a stable sort by [<], strings compare by code units. *)
Fixpoint insert_sorted (x : string) (l : list string) : list string :=
  match l with
  | [] => [x]
  | y :: l' => if String.ltb y x then y :: insert_sorted x l' else x :: l
  end.

Definition sorted (l : list string) : list string :=
  fold_right insert_sorted [] l.

(** [sep.join(l)]. *)
Definition join (sep : string) (l : list string) : string :=
  String.concat sep l.

(** Truthiness of a string: [not s] holds of the empty string only. *)
Definition falsy (s : string) : bool :=
  match s with
  | EmptyString => true
  | String _ _ => false
  end.

End Py.

Import Py.

Declare Scope py_scope.
Notation "x <- c ;; k" := (Py.bind c (fun x => k))
  (at level 61, c at next level, right associativity) : py_scope.
Local Open Scope py_scope.

(* ================================================================== *)
(** ** External collaborators *)

(** What the script consumes from its surroundings. *)
Record Env : Type := {
  (** [str(x)] on a document identifier *)
  py_str : value -> string;
  (** the datetime that [pd.to_datetime] reads in a string of a column;
      the column is given because the format is inferred from it *)
  parse_datetime : list value -> string -> option Z;
  (** whether the driver accepts a connection string *)
  driver_accepts : string -> bool;
  (** the text of the error of the driver for a string it refuses *)
  driver_error : string -> string;
  (** the answer of the database to the projection query on a collection
      of a database *)
  server : string -> string -> result (list dict)
}.

(* ================================================================== *)
(** ** Stage 1: the connection resolver *)

Module Resolver.

Record Client : Type := { client_uri : string; client_tls : bool }.
Record Database : Type := { db_client : Client; db_name : string }.
Record Collection : Type := { coll_db : Database; coll_name : string }.

(** What reaches the network. *)
Inductive net_event : Type :=
| Connect (uri : string) (tls : bool)
| Aggregate (db coll : string).

(** Computations that may raise and that extend the network log. *)
Definition Net (A : Type) : Type := list net_event -> result A * list net_event.

Definition net_ret {A} (a : A) : Net A := fun log => (Ok a, log).
Definition net_raise {A} (e : exn) : Net A := fun log => (Raise e, log).
Definition net_bind {A B} (c : Net A) (k : A -> Net B) : Net B :=
  fun log =>
    match c log with
    | (Ok a, log') => k a log'
    | (Raise e, log') => (Raise e, log')
    end.
Definition net_lift {A} (r : result A) : Net A := fun log => (r, log).

Section WithEnv.
Context (env : Env).

(** [MongoClient(uri, tls=True)]: the driver refuses a string it cannot
    read; otherwise the client exists and the connection is on record. *)
Definition MongoClient (uri : string) (tls : bool) : Net Client :=
  fun log =>
    if driver_accepts env uri
    then (Ok {| client_uri := uri; client_tls := tls |}, log ++ [Connect uri tls])
    else (Raise (PyMongoError (driver_error env uri)), log).

Definition get_collection (uri db_name coll_name : string) : Net Collection :=
  if falsy uri then
    net_raise (RuntimeError "MONGO_URI is not set. Add it to Streamlit Secrets.")
  else
    net_bind (MongoClient uri true) (fun client =>
    let db := {| db_client := client; db_name := db_name |} in
    net_ret {| coll_db := db; coll_name := coll_name |}).


(** [_coll.aggregate(pipeline)] drained into a list. *)
Definition aggregate (coll : Collection) : Net (list dict) :=
  fun log =>
    (server env (Resolver.db_name (coll_db coll)) (Resolver.coll_name coll),
     log ++ [Aggregate (Resolver.db_name (coll_db coll)) (Resolver.coll_name coll)]).

End WithEnv.

End Resolver.

(* ================================================================== *)
(** ** Stage 2: the loader and flattener *)

Module Loader.
Import Resolver.

(** One dict appended to [rows]: the passed-through fields hold whatever
    the document held. *)
Record FlatRow : Type := {
  order_id : string;
  purchase_ts : value;
  purchase_date : value;
  purchase_time : value;
  weekday : value;
  hour : value;
  store_city : value;
  region : value;
  channel : value;
  payment_method : value;
  loyalty_member : value;
  age_band : value;
  coupon_used : value;
  discount_pct : value;
  subtotal : value;
  discount_amount : value;
  tax_amount : value;
  shipping_amount : value;
  total_amount : value;
  num_items : Z;
  categories : string
}.

Definition flat_columns : list string :=
  ["order_id"; "purchase_ts"; "purchase_date"; "purchase_time"; "weekday";
   "hour"; "store_city"; "region"; "channel"; "payment_method";
   "loyalty_member"; "age_band"; "coupon_used"; "discount_pct"; "subtotal";
   "discount_amount"; "tax_amount"; "shipping_amount"; "total_amount";
   "num_items"; "categories"].

Record DataFrame : Type := {
  df_columns : list string;
  df_rows : list FlatRow
}.

(** [pd.DataFrame()]: no columns and no rows. *)
Definition empty_frame : DataFrame := {| df_columns := []; df_rows := [] |}.

(** [pd.DataFrame(rows)] for a list of dicts that all have the same keys. *)
Definition frame_of_rows (rows : list FlatRow) : DataFrame :=
  {| df_columns := match rows with [] => [] | _ :: _ => flat_columns end;
     df_rows := rows |}.

(** [df.empty]: some axis has length 0. *)
Definition df_empty (df : DataFrame) : bool :=
  (Nat.eqb (List.length (df_columns df)) 0 || Nat.eqb (List.length (df_rows df)) 0)%bool.

(** [len(df)]. *)
Definition df_len (df : DataFrame) : nat := List.length (df_rows df).

(** The nanoseconds a timestamp can hold: a signed 64-bit count whose
    lowest value stands for NaT. *)
Definition in_timestamp_range (t : Z) : bool :=
  ((- 2 ^ 63 <? t) && (t <? 2 ^ 63))%bool.

(** [",".join(sorted({it.get("category","") for it in items}))]. *)
Definition categories_of (its : list value) : result string :=
  cats <- py_set_gen (fun it => attr_get it "category" (VStr "")) its ;;
  strs <- strings_of cats ;;
  Ok (join "," (sorted (py_set strs))).

Section WithEnv.
Context (env : Env).

(** The body of the loop over [docs]; the entries of the dict literal are
    evaluated in the order they are written. *)
Definition flatten (d : dict) : result FlatRow :=
  let items := dict_get d "items" (VList []) in
  let v_order_id := py_str env (dict_get d "_id" VNull) in
  v_store_city <- attr_get (dict_get d "store" (VDoc [])) "store_city" VNull ;;
  v_region <- attr_get (dict_get d "store" (VDoc [])) "region" VNull ;;
  v_loyalty <- attr_get (dict_get d "customer" (VDoc [])) "loyalty_member" VNull ;;
  v_age_band <- attr_get (dict_get d "customer" (VDoc [])) "age_band" VNull ;;
  its <- py_iter items ;;
  v_num_items <- py_sum_gen (fun it => attr_get it "quantity" (VNum 0)) 0 its ;;
  v_categories <- categories_of its ;;
  Ok {| order_id := v_order_id;
        purchase_ts := dict_get d "purchase_ts" VNull;
        purchase_date := dict_get d "purchase_date" VNull;
        purchase_time := dict_get d "purchase_time" VNull;
        weekday := dict_get d "weekday" VNull;
        hour := dict_get d "hour" VNull;
        store_city := v_store_city;
        region := v_region;
        channel := dict_get d "channel" VNull;
        payment_method := dict_get d "payment_method" VNull;
        loyalty_member := v_loyalty;
        age_band := v_age_band;
        coupon_used := dict_get d "coupon_used" VNull;
        discount_pct := dict_get d "discount_pct" VNull;
        subtotal := dict_get d "subtotal" VNull;
        discount_amount := dict_get d "discount_amount" VNull;
        tax_amount := dict_get d "tax_amount" VNull;
        shipping_amount := dict_get d "shipping_amount" VNull;
        total_amount := dict_get d "total_amount" VNull;
        num_items := v_num_items;
        categories := v_categories |}.

(** [pd.to_datetime(column, errors="coerce")] on one cell of the column:
    a datetime stays and an integer counts nanoseconds, both only inside
    the range of a timestamp; a string is read as the parser reads it in
    this column; what cannot be converted becomes NaT. *)
Definition to_datetime_coerce (column : list value) (v : value) : value :=
  match v with
  | VDate t => if in_timestamp_range t then VDate t else VNull
  | VNum n => if in_timestamp_range n then VDate n else VNull
  | VStr s => match parse_datetime env column s with
              | Some t => VDate t
              | None => VNull
              end
  | _ => VNull
  end.

Definition set_purchase_ts (column : list value) (r : FlatRow) : FlatRow :=
  {| order_id := order_id r;
     purchase_ts := to_datetime_coerce column (purchase_ts r);
     purchase_date := purchase_date r;
     purchase_time := purchase_time r;
     weekday := weekday r;
     hour := hour r;
     store_city := store_city r;
     region := region r;
     channel := channel r;
     payment_method := payment_method r;
     loyalty_member := loyalty_member r;
     age_band := age_band r;
     coupon_used := coupon_used r;
     discount_pct := discount_pct r;
     subtotal := subtotal r;
     discount_amount := discount_amount r;
     tax_amount := tax_amount r;
     shipping_amount := shipping_amount r;
     total_amount := total_amount r;
     num_items := num_items r;
     categories := categories r |}.

(** [df["purchase_ts"] = pd.to_datetime(df["purchase_ts"], errors="coerce")]. *)
Definition coerce_purchase_ts (df : DataFrame) : DataFrame :=
  {| df_columns := df_columns df;
     df_rows := map (set_purchase_ts (map purchase_ts (df_rows df))) (df_rows df) |}.

(** [load_orders]: the projection query, the early return on no documents,
    the loop that flattens, the frame and the conversion of the timestamp
    column. *)
Definition load_orders (coll : Collection) : Net DataFrame :=
  net_bind (aggregate env coll) (fun docs =>
  match docs with
  | [] => net_ret empty_frame
  | _ :: _ =>
      net_bind (net_lift (mapM flatten docs)) (fun rows =>
      net_ret (coerce_purchase_ts (frame_of_rows rows)))
  end).

End WithEnv.

End Loader.

(* ================================================================== *)
(** ** The start of the script: connect, load, and the two ways to stop *)

Module App.
Import Resolver Loader.

Definition page_title : string := "🛍️ Retail Orders Dashboard".

(** [ErrorBox e] is [st.error(f"Database connection failed: {e}")], the
    banner of the exception [e]. *)
Inductive ui_event : Type :=
| Title (text : string)
| ErrorBox (e : exn)
| WarningBox (text : string).

(** [st.stop()] ends the run; otherwise the script goes on with [df]. *)
Inductive run : Type :=
| Stopped
| Continues (df : DataFrame).

Section WithEnv.
Context (env : Env).

Definition startup (uri db_name coll_name : string) (log : list net_event)
  : list ui_event * run * list net_event :=
  let ui := [Title page_title] in
  match net_bind (get_collection env uri db_name coll_name)
                 (load_orders env) log with
  | (Raise e, log') =>
      (ui ++ [ErrorBox e], Stopped, log')
  | (Ok df, log') =>
      if df_empty df then
        (ui ++ [WarningBox
                  "No orders found. Import data into your collection and refresh."],
         Stopped, log')
      else (ui, Continues df, log')
  end.

End WithEnv.

End App.

(* ================================================================== *)
(** ** The dataframe operations the script calls *)

Module Frame.

(** The columns the filter and the aggregates read, at the types of the
    data model: strings, a boolean, numbers and a timestamp, each nullable. *)
Record Row : Type := {
  purchase_ts : option Z;
  weekday : option string;
  hour : option Z;
  region : option string;
  channel : option string;
  loyalty_member : option bool;
  age_band : option string;
  discount_pct : option Z;
  total_amount : option Z
}.

Definition as_ts (v : value) : option Z :=
  match v with VDate t => Some t | _ => None end.
Definition as_str (v : value) : option string :=
  match v with VStr s => Some s | _ => None end.
Definition as_num (v : value) : option Z :=
  match v with VNum n => Some n | _ => None end.
Definition as_bool (v : value) : option bool :=
  match v with VBool b => Some b | _ => None end.

(** The typed view of a loaded row. *)
Definition row_of_flat (r : Loader.FlatRow) : Row :=
  {| purchase_ts := as_ts (Loader.purchase_ts r);
     weekday := as_str (Loader.weekday r);
     hour := as_num (Loader.hour r);
     region := as_str (Loader.region r);
     channel := as_str (Loader.channel r);
     loyalty_member := as_bool (Loader.loyalty_member r);
     age_band := as_str (Loader.age_band r);
     discount_pct := as_num (Loader.discount_pct r);
     total_amount := as_num (Loader.total_amount r) |}.

Definition typed (df : Loader.DataFrame) : list Row :=
  map row_of_flat (Loader.df_rows df).

(** *** Series and boolean masks *)

Definition Series (A : Type) : Type := list A.

(** [df[name]]. *)
Definition col {A} (field : Row -> A) (df : list Row) : Series A :=
  map field df.

(** [pd.Series(b, index=df.index)]. *)
Definition full (df : list Row) (b : bool) : Series bool :=
  repeat b (List.length df).

(** [a & b] on two aligned boolean series. *)
Fixpoint and_series (a b : Series bool) : Series bool :=
  match a, b with
  | x :: a', y :: b' => (x && y)%bool :: and_series a' b'
  | _, _ => []
  end.

(** [s >= t] and [s < t] on timestamps: a comparison with NaT is False. *)
Definition ge_ts (s : Series (option Z)) (t : Z) : Series bool :=
  map (fun v => match v with Some x => t <=? x | None => false end) s.
Definition lt_ts (s : Series (option Z)) (t : Z) : Series bool :=
  map (fun v => match v with Some x => x <? t | None => false end) s.

(** [s.isin(vals)] for a list of non-null values: a null cell is in none. *)
Definition isin {A} (eqb : A -> A -> bool) (s : Series (option A))
  (vals : list A) : Series bool :=
  map (fun v => match v with
                | Some x => existsb (eqb x) vals
                | None => false
                end) s.

(** [df[mask]]. *)
Fixpoint boolean_index {A} (df : list A) (mask : Series bool) : list A :=
  match df, mask with
  | r :: df', b :: mask' =>
      if b then r :: boolean_index df' mask' else boolean_index df' mask'
  | _, _ => []
  end.

(** *** Time *)

Definition NS_PER_SECOND : Z := 1000000000.
Definition NS_PER_DAY : Z := 86400 * NS_PER_SECOND.

(** [pd.to_datetime(d)] of a date: its midnight. *)
Definition to_datetime_date (d : Z) : Z := d * NS_PER_DAY.

(** [pd.Timedelta(days=n)]. *)
Definition Timedelta_days (n : Z) : Z := n * NS_PER_DAY.

(** The calendar day a timestamp falls on. *)
Definition day_of (t : Z) : Z := t / NS_PER_DAY.

(** *** Reductions *)

(** [s.sum()]: nulls are skipped, the empty sum is 0. *)
Definition sum_skipna (s : Series (option Z)) : Z :=
  fold_left (fun acc v => match v with Some x => acc + x | None => acc end) s 0.

Definition count_notna (s : Series (option Z)) : Z :=
  fold_left (fun acc v => match v with Some _ => acc + 1 | None => acc end) s 0.

(** A sum over [n] values as their mean; NaN when there is no value. *)
Definition mean_of (sum n : Z) : option Q :=
  if n <=? 0 then None else Some (Qmake sum (Z.to_pos n)).

(** [s.mean()]: nulls are left out of the denominator. *)
Definition mean_skipna (s : Series (option Z)) : option Q :=
  mean_of (sum_skipna s) (count_notna s).

(** [x * 100] on a float that may be NaN. *)
Definition times100 (x : option Q) : option Q :=
  match x with
  | Some q => Some (q * 100)%Q
  | None => None
  end.

(** *** Sorting and grouping *)

Fixpoint insert_by {A} (before : A -> A -> bool) (x : A) (l : list A) : list A :=
  match l with
  | [] => [x]
  | y :: l' => if before y x then y :: insert_by before x l' else x :: l
  end.

(** A stable sort; [before y x] says that [y] goes strictly first. *)
Definition sort_by {A} (before : A -> A -> bool) (l : list A) : list A :=
  fold_right (insert_by before) [] l.

Fixpoint dedup {A} (eqb : A -> A -> bool) (l : list A) : list A :=
  match l with
  | [] => []
  | x :: l' => if existsb (eqb x) l' then dedup eqb l' else x :: dedup eqb l'
  end.

(** The accumulator of a grouped reduction: the entry of [k] is changed by
    [f], starting from [v0] when the key is new. *)
Fixpoint upsert {K V} (eqb : K -> K -> bool) (k : K) (v0 : V) (f : V -> V)
  (acc : list (K * V)) : list (K * V) :=
  match acc with
  | [] => [(k, f v0)]
  | (k', v) :: rest =>
      if eqb k k' then (k', f v) :: rest
      else (k', v) :: upsert eqb k v0 f rest
  end.

Fixpoint lookup {K V} (eqb : K -> K -> bool) (k : K) (acc : list (K * V))
  : option V :=
  match acc with
  | [] => None
  | (k', v) :: rest => if eqb k k' then Some v else lookup eqb k rest
  end.

(** The value a row adds to a sum: a null adds nothing. *)
Definition addend (v : option Z) : Z :=
  match v with Some x => x | None => 0 end.

(** [groupby(key)[val].sum()] before the keys are sorted: rows with a null
    key are dropped, every other row adds to the entry of its key. *)
Definition group_sum {K} (eqb : K -> K -> bool) (key : Row -> option K)
  (val : Row -> option Z) (rows : list Row) : list (K * Z) :=
  fold_left (fun acc r =>
               match key r with
               | Some k => upsert eqb k 0 (fun s => s + addend (val r)) acc
               | None => acc
               end) rows [].

(** The same with the sum and the count of the non-null values. *)
Definition group_sum_count {K} (eqb : K -> K -> bool) (key : Row -> option K)
  (val : Row -> option Z) (rows : list Row) : list (K * (Z * Z)) :=
  fold_left (fun acc r =>
               match key r with
               | Some k =>
                   upsert eqb k (0, 0)
                     (fun sc => match val r with
                                | Some x => (fst sc + x, snd sc + 1)
                                | None => sc
                                end) acc
               | None => acc
               end) rows [].

Definition group_mean {K} (eqb : K -> K -> bool) (key : Row -> option K)
  (val : Row -> option Z) (rows : list Row) : list (K * option Q) :=
  map (fun p => (fst p, mean_of (fst (snd p)) (snd (snd p))))
      (group_sum_count eqb key val rows).

(** The groups of [groupby] come out sorted by key. *)
Definition by_key {K V} (ltb : K -> K -> bool) (l : list (K * V)) : list (K * V) :=
  sort_by (fun a b => ltb (fst a) (fst b)) l.

(** [sort_values(ascending=False)] on sums. *)
Definition sort_values_desc (l : list (string * Z)) : list (string * Z) :=
  sort_by (fun a b => snd b <? snd a) l.

(** [sort_values(ascending=False)] on means: NaN goes last. *)
Definition sort_means_desc (l : list (string * option Q)) : list (string * option Q) :=
  sort_by (fun a b =>
             match snd a, snd b with
             | Some x, Some y => negb (Qle_bool x y)
             | Some _, None => true
             | None, _ => false
             end) l.

(** *** Resampling by day *)

Definition stamps (rows : list Row) : list Z :=
  flat_map (fun r => match purchase_ts r with Some t => [t] | None => [] end) rows.

(** [n] consecutive days from [first]. *)
Definition day_range (first : Z) (n : nat) : list Z :=
  map (fun i => first + Z.of_nat i) (seq 0 n).

(** A row is added to the bin of its day; a null adds nothing. *)
Definition add_to_bin (val : Row -> option Z) (acc : list (Z * Z)) (r : Row)
  : list (Z * Z) :=
  match purchase_ts r with
  | Some x => upsert Z.eqb (day_of x) 0 (fun s => s + addend (val r)) acc
  | None => acc
  end.

(** [resample("D", on="purchase_ts")[val].sum()]: one bin per calendar day
    from the day of the earliest timestamp to the day of the latest, each
    row added to the bin of its day, every bin labelled by its midnight. *)
Definition resample_D_sum (val : Row -> option Z) (rows : list Row)
  : list (Z * Z) :=
  match stamps rows with
  | [] => []
  | t :: ts =>
      let first := day_of (fold_left Z.min ts t) in
      let last := day_of (fold_left Z.max ts t) in
      let bins := map (fun d => (d, 0))
                      (day_range first (Z.to_nat (last - first + 1))) in
      let filled := fold_left (add_to_bin val) rows bins in
      map (fun p => (to_datetime_date (fst p), snd p)) filled
  end.

(** *** Pivot tables *)

Record Table : Type := {
  tbl_index : list string;
  tbl_columns : list Z;
  tbl_cells : list (list (option Z))
}.

Definition key2_eqb (a b : string * Z) : bool :=
  (String.eqb (fst a) (fst b) && (snd a =? snd b))%bool.

Definition key2 (r : Row) : option (string * Z) :=
  match weekday r, hour r with
  | Some w, Some h => Some (w, h)
  | _, _ => None
  end.

(** [pivot_table(index="weekday", columns="hour", values=val,
    aggfunc="sum")]: the sums grouped by the pair of keys, unstacked into
    one row per weekday and one column per hour, both sorted; a pair with
    no row is NaN.  A sum is never NaN, so neither the groups nor the
    columns have an all-NaN entry for [dropna] to remove. *)
Definition pivot_table_sum (val : Row -> option Z) (rows : list Row) : Table :=
  let agged := group_sum key2_eqb key2 val rows in
  let index := sort_by String.ltb (dedup String.eqb (map (fun p => fst (fst p)) agged)) in
  let columns := sort_by Z.ltb (dedup Z.eqb (map (fun p => snd (fst p)) agged)) in
  {| tbl_index := index;
     tbl_columns := columns;
     tbl_cells :=
       map (fun w => map (fun h => lookup key2_eqb (w, h) agged) columns) index |}.

(** [fillna(x)]. *)
Definition fillna (x : Z) (t : Table) : Table :=
  {| tbl_index := tbl_index t;
     tbl_columns := tbl_columns t;
     tbl_cells :=
       map (map (fun c => match c with Some v => Some v | None => Some x end))
           (tbl_cells t) |}.

Fixpoint position (lbl : string) (index : list string) : option nat :=
  match index with
  | [] => None
  | l :: index' =>
      if String.eqb lbl l then Some O
      else match position lbl index' with
           | Some i => Some (S i)
           | None => None
           end
  end.

(** [reindex(labels)]: the rows in the order of [labels]; a label the table
    does not have gets a row of NaN, a row whose label is not asked for is
    left out. *)
Definition reindex (labels : list string) (t : Table) : Table :=
  let blank := repeat None (List.length (tbl_columns t)) in
  {| tbl_index := labels;
     tbl_columns := tbl_columns t;
     tbl_cells :=
       map (fun lbl => match position lbl (tbl_index t) with
                       | Some i => nth i (tbl_cells t) blank
                       | None => blank
                       end) labels |}.

(** The value under column [c] in a row of cells. *)
Fixpoint find_col (c : Z) (cs : list Z) (vs : list (option Z))
  : option (option Z) :=
  match cs, vs with
  | c' :: cs', v :: vs' => if c =? c' then Some v else find_col c cs' vs'
  | _, _ => None
  end.

(** [t.loc[lbl, c]]: nothing when the table has no such row or column,
    otherwise the cell, which may be NaN. *)
Definition cell (t : Table) (lbl : string) (c : Z) : option (option Z) :=
  match position lbl (tbl_index t) with
  | None => None
  | Some i =>
      match nth_error (tbl_cells t) i with
      | None => None
      | Some row => find_col c (tbl_columns t) row
      end
  end.

(** *** What the sidebar and the raw table use *)

(** [s.dropna()]. *)
Definition dropna {A} (s : Series (option A)) : list A :=
  flat_map (fun v => match v with Some x => [x] | None => [] end) s.

(** [s.unique()]: the values in the order of their first appearance. *)
Fixpoint unique_from {A} (eqb : A -> A -> bool) (seen l : list A) : list A :=
  match l with
  | [] => []
  | x :: l' =>
      if existsb (eqb x) seen then unique_from eqb seen l'
      else x :: unique_from eqb (x :: seen) l'
  end.

Definition unique {A} (eqb : A -> A -> bool) (l : list A) : list A :=
  unique_from eqb [] l.

(** [s.min()] and [s.max()] on timestamps: NaT is skipped, and the result
    is NaT when nothing is left. *)
Definition series_min (s : Series (option Z)) : option Z :=
  match dropna s with
  | [] => None
  | t :: ts => Some (fold_left Z.min ts t)
  end.

Definition series_max (s : Series (option Z)) : option Z :=
  match dropna s with
  | [] => None
  | t :: ts => Some (fold_left Z.max ts t)
  end.

(** The order of [sort_values("purchase_ts", ascending=False)]: later
    timestamps first, NaT last. *)
Definition newer (a b : Row) : bool :=
  match purchase_ts a, purchase_ts b with
  | Some x, Some y => y <? x
  | Some _, None => true
  | None, _ => false
  end.

Definition sort_purchase_ts_desc (df : list Row) : list Row :=
  sort_by newer df.

(** [df.head(n)]. *)
Definition head {A} (n : nat) (df : list A) : list A := firstn n df.

End Frame.

(* ================================================================== *)
(** ** Stage 3: the filter and the aggregates *)

Module Dashboard.
Import Frame.

(** What the sidebar hands over: the two dates of the range and the
    selections of the four multiselects. *)
Record Filters : Type := {
  date_start : Z;
  date_end : Z;
  sel_region : list string;
  sel_channel : list string;
  sel_loyalty : list bool;
  sel_age : list string
}.

(** Truthiness of a list: [if l:] holds of a non-empty list. *)
Definition truthy {A} (l : list A) : bool :=
  match l with
  | [] => false
  | _ :: _ => true
  end.

(** The mask after the date line:
    [mask &= (df["purchase_ts"] >= start) & (df["purchase_ts"] < end)]. *)
Definition date_mask (d0 d1 : Z) (df : list Row) : Series bool :=
  let mask := full df true in
  let start := to_datetime_date d0 in
  let end_ := to_datetime_date d1 + Timedelta_days 1 in
  and_series mask
    (and_series (ge_ts (col purchase_ts df) start)
                (lt_ts (col purchase_ts df) end_)).

(** The whole mask: each multiselect narrows it only when something is
    selected. *)
Definition build_mask (fs : Filters) (df : list Row) : Series bool :=
  let mask := date_mask (date_start fs) (date_end fs) df in
  let mask := if truthy (sel_region fs)
              then and_series mask (isin String.eqb (col region df) (sel_region fs))
              else mask in
  let mask := if truthy (sel_channel fs)
              then and_series mask (isin String.eqb (col channel df) (sel_channel fs))
              else mask in
  let mask := if truthy (sel_loyalty fs)
              then and_series mask (isin Bool.eqb (col loyalty_member df) (sel_loyalty fs))
              else mask in
  let mask := if truthy (sel_age fs)
              then and_series mask (isin String.eqb (col age_band df) (sel_age fs))
              else mask in
  mask.

(** [f = df[mask].copy()]. *)
Definition filtered (fs : Filters) (df : list Row) : list Row :=
  boolean_index df (build_mask fs df).

(** *** Headline metrics *)

Definition order_count (f : list Row) : nat := List.length f.
Definition total_revenue (f : list Row) : Z := sum_skipna (col total_amount f).
Definition avg_order_value (f : list Row) : option Q :=
  mean_skipna (col total_amount f).
Definition avg_discount_pct (f : list Row) : option Q :=
  times100 (mean_skipna (col discount_pct f)).

(** *** Charts *)

(** [f.resample("D", on="purchase_ts")["total_amount"].sum().reset_index()]:
    pairs of a midnight and the revenue of that day. *)
Definition daily (f : list Row) : list (Z * Z) :=
  resample_D_sum total_amount f.

Definition by_region (f : list Row) : list (string * Z) :=
  sort_values_desc (by_key String.ltb (group_sum String.eqb region total_amount f)).

Definition by_channel (f : list Row) : list (string * Z) :=
  sort_values_desc (by_key String.ltb (group_sum String.eqb channel total_amount f)).

Definition bool_ltb (a b : bool) : bool := (negb a && b)%bool.

(** [rename({True:"Loyalty", False:"Non-Loyalty"})]. *)
Definition loyalty_label (b : bool) : string :=
  if b then "Loyalty" else "Non-Loyalty".

Definition aov (f : list Row) : list (string * option Q) :=
  map (fun p => (loyalty_label (fst p), snd p))
      (by_key bool_ltb (group_mean Bool.eqb loyalty_member total_amount f)).

Definition disc (f : list Row) : list (string * option Q) :=
  sort_means_desc
    (map (fun p => (fst p, times100 (snd p)))
         (by_key String.ltb (group_mean String.eqb channel discount_pct f))).

(** *** The weekday by hour table *)

Definition wd_order : list string :=
  ["Monday"; "Tuesday"; "Wednesday"; "Thursday"; "Friday"; "Saturday"; "Sunday"].

(** [heat = f.pivot_table(...).fillna(0)] and then [heat.reindex(wd_order)],
    in this order. *)
Definition heat (f : list Row) : Table :=
  let heat := fillna 0 (pivot_table_sum total_amount f) in
  reindex wd_order heat.

(** Everything the page shows about the filtered rows. *)
Record Aggregates : Type := {
  agg_order_count : nat;
  agg_total_revenue : Z;
  agg_avg_order_value : option Q;
  agg_avg_discount_pct : option Q;
  agg_daily : list (Z * Z);
  agg_by_region : list (string * Z);
  agg_by_channel : list (string * Z);
  agg_aov : list (string * option Q);
  agg_disc : list (string * option Q);
  agg_heat : Table
}.

Definition aggregates (f : list Row) : Aggregates :=
  {| agg_order_count := order_count f;
     agg_total_revenue := total_revenue f;
     agg_avg_order_value := avg_order_value f;
     agg_avg_discount_pct := avg_discount_pct f;
     agg_daily := daily f;
     agg_by_region := by_region f;
     agg_by_channel := by_channel f;
     agg_aov := aov f;
     agg_disc := disc f;
     agg_heat := heat f |}.

(** *** The sidebar *)

(** [df["purchase_ts"].min().date()] and [.max().date()]: the calendar
    days of the earliest and of the latest timestamp. *)
Definition date_min (df : list Row) : option Z :=
  option_map day_of (series_min (col purchase_ts df)).

Definition date_max (df : list Row) : option Z :=
  option_map day_of (series_max (col purchase_ts df)).

(** [sorted(df[name].dropna().unique())]: what a multiselect offers. *)
Definition options (field : Row -> option string) (df : list Row) : list string :=
  sorted (unique String.eqb (dropna (col field df))).

Definition region_options (df : list Row) : list string := options region df.
Definition channel_options (df : list Row) : list string := options channel df.
Definition age_options (df : list Row) : list string := options age_band df.
Definition loyalty_options : list bool := [true; false].

(** *** The raw table *)

(** [if show_table:] the filtered rows, most recent first, at most 1000. *)
Definition raw_orders (show_table : bool) (f : list Row) : option (list Row) :=
  if show_table then Some (head 1000 (sort_purchase_ts_desc f)) else None.

End Dashboard.

(* ================================================================== *)
(** ** Vocabulary of the statements *)

Module Spec.
Import Frame Dashboard.

(** A document of the schema: the sub-records, where present, are
    documents; the items, where present, are a list of documents whose
    quantity is a number and whose category is a string where present. *)
Definition is_doc (v : value) : bool :=
  match v with VDoc _ => true | _ => false end.

Definition item_ok (it : value) : bool :=
  match it with
  | VDoc kv =>
      (match dict_get kv "quantity" (VNum 0) with VNum _ => true | _ => false end
       && match dict_get kv "category" (VStr "") with VStr _ => true | _ => false end)%bool
  | _ => false
  end.

Definition items_ok (v : value) : bool :=
  match v with
  | VList its => forallb item_ok its
  | _ => false
  end.

Definition doc_ok (d : dict) : bool :=
  (is_doc (dict_get d "store" (VDoc []))
   && is_doc (dict_get d "customer" (VDoc []))
   && items_ok (dict_get d "items" (VList [])))%bool.

(** The category label of an item, the empty string when it has none. *)
Definition category_label (it : value) : string :=
  match it with
  | VDoc kv => match dict_get kv "category" (VStr "") with
               | VStr s => s
               | _ => ""
               end
  | _ => ""
  end.

(** The quantity of an item, 0 when it has none. *)
Definition quantity_of (it : value) : Z :=
  match it with
  | VDoc kv => match dict_get kv "quantity" (VNum 0) with
               | VNum n => n
               | _ => 0
               end
  | _ => 0
  end.

(** Strict order of strings by code units. *)
Definition str_lt (a b : string) : Prop := String.compare a b = Lt.

(** The row lies in the days from [d0] to [d1], both included. *)
Definition in_date_range (d0 d1 : Z) (r : Row) : Prop :=
  exists t, purchase_ts r = Some t
            /\ to_datetime_date d0 <= t < to_datetime_date (d1 + 1).

(** The row passes a set of allowed values: an empty set allows all. *)
Definition allowed {A} (sel : list A) (v : option A) : Prop :=
  sel = [] \/ exists x, v = Some x /\ In x sel.

(** The conjunction of the date range and the four optional sets. *)
Definition passes (fs : Filters) (r : Row) : Prop :=
  in_date_range (date_start fs) (date_end fs) r
  /\ allowed (sel_region fs) (region r)
  /\ allowed (sel_channel fs) (channel r)
  /\ allowed (sel_loyalty fs) (loyalty_member r)
  /\ allowed (sel_age fs) (age_band r).

(** The same as a decision on one row. *)
Definition allowedb {A} (eqb : A -> A -> bool) (sel : list A) (v : option A) : bool :=
  match sel with
  | [] => true
  | _ :: _ => match v with
              | Some x => existsb (eqb x) sel
              | None => false
              end
  end.

Definition in_date_rangeb (d0 d1 : Z) (r : Row) : bool :=
  match purchase_ts r with
  | Some t => ((to_datetime_date d0 <=? t) && (t <? to_datetime_date (d1 + 1)))%bool
  | None => false
  end.

Definition passesb (fs : Filters) (r : Row) : bool :=
  (in_date_rangeb (date_start fs) (date_end fs) r
   && allowedb String.eqb (sel_region fs) (region r)
   && allowedb String.eqb (sel_channel fs) (channel r)
   && allowedb Bool.eqb (sel_loyalty fs) (loyalty_member r)
   && allowedb String.eqb (sel_age fs) (age_band r))%bool.

(** The revenue of the rows of one calendar day. *)
Definition revenue_on (d : Z) (f : list Row) : Z :=
  fold_right Z.add 0
    (map (fun r => addend (total_amount r))
         (filter (fun r => match purchase_ts r with
                           | Some t => day_of t =? d
                           | None => false
                           end) f)).

(** Some row of [f] falls on the day that starts at [t]. *)
Definition day_has_row (f : list Row) (t : Z) : Prop :=
  exists r x, In r f /\ purchase_ts r = Some x /\ to_datetime_date (day_of x) = t.

(** Every point of the daily series is a day that has a row. *)
Definition only_days_with_rows (f : list Row) : Prop :=
  forall p, In p (daily f) -> day_has_row f (fst p).

(** No row of [f] has this weekday and this hour. *)
Definition no_row_at (f : list Row) (w : string) (h : Z) : Prop :=
  forall r, In r f -> ~ (weekday r = Some w /\ hour r = Some h).

(** Every cell of the table without a matching row holds 0. *)
Definition absent_cells_zero (f : list Row) : Prop :=
  forall w h v, cell (heat f) w h = Some v -> no_row_at f w h -> v = Some 0.

(** The items a document lists, none when it has no such field. *)
Definition items_of (d : dict) : list value :=
  match dict_get d "items" (VList []) with
  | VList its => its
  | _ => []
  end.

(** A sub-record of a document, empty when it has no such field. *)
Definition sub_record (d : dict) (k : string) : dict :=
  match dict_get d k (VDoc []) with
  | VDoc kv => kv
  | _ => []
  end.

(** The row of a document, field by field: what is absent reads as null,
    as no item, or as the empty string. *)
Definition flat_row (env : Env) (d : dict) : Loader.FlatRow :=
  {| Loader.order_id := py_str env (dict_get d "_id" VNull);
     Loader.purchase_ts := dict_get d "purchase_ts" VNull;
     Loader.purchase_date := dict_get d "purchase_date" VNull;
     Loader.purchase_time := dict_get d "purchase_time" VNull;
     Loader.weekday := dict_get d "weekday" VNull;
     Loader.hour := dict_get d "hour" VNull;
     Loader.store_city := dict_get (sub_record d "store") "store_city" VNull;
     Loader.region := dict_get (sub_record d "store") "region" VNull;
     Loader.channel := dict_get d "channel" VNull;
     Loader.payment_method := dict_get d "payment_method" VNull;
     Loader.loyalty_member := dict_get (sub_record d "customer") "loyalty_member" VNull;
     Loader.age_band := dict_get (sub_record d "customer") "age_band" VNull;
     Loader.coupon_used := dict_get d "coupon_used" VNull;
     Loader.discount_pct := dict_get d "discount_pct" VNull;
     Loader.subtotal := dict_get d "subtotal" VNull;
     Loader.discount_amount := dict_get d "discount_amount" VNull;
     Loader.tax_amount := dict_get d "tax_amount" VNull;
     Loader.shipping_amount := dict_get d "shipping_amount" VNull;
     Loader.total_amount := dict_get d "total_amount" VNull;
     Loader.num_items := fold_right Z.add 0 (map quantity_of (items_of d));
     Loader.categories :=
       join "," (sorted (py_set (map category_label (items_of d)))) |}.



(** The message shown when there is nothing to show. *)
Definition no_orders_message : string :=
  "No orders found. Import data into your collection and refresh.".

(** The filters with another selection of loyalty. *)
Definition with_loyalty (fs : Filters) (sel : list bool) : Filters :=
  {| date_start := date_start fs; date_end := date_end fs;
     sel_region := sel_region fs; sel_channel := sel_channel fs;
     sel_loyalty := sel; sel_age := sel_age fs |}.

(** What the page computes when no row is left. *)
Definition empty_aggregates : Aggregates :=
  {| agg_order_count := 0%nat;
     agg_total_revenue := 0;
     agg_avg_order_value := None;
     agg_avg_discount_pct := None;
     agg_daily := [];
     agg_by_region := [];
     agg_by_channel := [];
     agg_aov := [];
     agg_disc := [];
     agg_heat := {| tbl_index := wd_order;
                    tbl_columns := [];
                    tbl_cells := [[]; []; []; []; []; []; []] |} |}.

(** The last second of a day. *)
Definition last_second (d : Z) : Z := to_datetime_date d + 86399 * NS_PER_SECOND.

(** The row has this key. *)
Definition has_key {K} (eqb : K -> K -> bool) (key : Row -> option K) (k : K)
  (r : Row) : bool :=
  match key r with
  | Some k' => eqb k k'
  | None => false
  end.

(** The sum of a column over the rows of one key. *)
Definition group_total {K} (eqb : K -> K -> bool) (key : Row -> option K)
  (val : Row -> option Z) (k : K) (rows : list Row) : Z :=
  fold_right Z.add 0
    (map (fun r => addend (val r)) (filter (has_key eqb key k) rows)).

(** The revenue of one weekday and hour. *)
Definition revenue_at (w : string) (h : Z) (f : list Row) : Z :=
  group_total key2_eqb key2 total_amount (w, h) f.

(** Some row of [f] has this weekday, and an hour. *)
Definition weekday_in_data (f : list Row) (w : string) : Prop :=
  exists r h, In r f /\ weekday r = Some w /\ hour r = Some h.

(** Some row of [f] has this hour, and a weekday. *)
Definition hour_in_data (f : list Row) (h : Z) : Prop :=
  exists r w, In r f /\ weekday r = Some w /\ hour r = Some h.

(** The fields the projection of the query names, by their first
    component, and the two sub-records by their components. *)
Definition projected_fields : list string :=
  ["_id"; "purchase_ts"; "purchase_date"; "purchase_time"; "weekday"; "hour";
   "store"; "channel"; "payment_method"; "customer"; "coupon_used";
   "discount_pct"; "subtotal"; "discount_amount"; "tax_amount";
   "shipping_amount"; "total_amount"; "items"].
Definition store_fields : list string := ["store_city"; "region"].
Definition customer_fields : list string := ["loyalty_member"; "age_band"].

(** A dict without the bindings of other keys. *)
Definition restrict (keys : list string) (d : dict) : dict :=
  filter (fun p => existsb (String.eqb (fst p)) keys) d.

Definition restrict_sub (keys : list string) (v : value) : value :=
  match v with
  | VDoc kv => VDoc (restrict keys kv)
  | _ => v
  end.

(** A document with everything outside the projected paths removed. *)
Definition keep_projected (d : dict) : dict :=
  map (fun p =>
         (fst p,
          if String.eqb (fst p) "store" then restrict_sub store_fields (snd p)
          else if String.eqb (fst p) "customer"
               then restrict_sub customer_fields (snd p)
               else snd p))
      (restrict projected_fields d).

(** A cell of the timestamp column after the load: a datetime or NaT. *)
Definition is_datetime (v : value) : bool :=
  match v with
  | VDate _ | VNull => true
  | _ => false
  end.

(** The filters with another selection of regions. *)
Definition with_region (fs : Filters) (sel : list string) : Filters :=
  {| date_start := date_start fs; date_end := date_end fs;
     sel_region := sel; sel_channel := sel_channel fs;
     sel_loyalty := sel_loyalty fs; sel_age := sel_age fs |}.

(** A date range and nothing selected. *)
Definition no_selection (d0 d1 : Z) : Filters :=
  {| date_start := d0; date_end := d1; sel_region := []; sel_channel := [];
     sel_loyalty := []; sel_age := [] |}.

Definition has_ts (r : Row) : bool :=
  match purchase_ts r with Some _ => true | None => false end.
Definition has_region (r : Row) : bool :=
  match region r with Some _ => true | None => false end.

(** The sum of a list of numbers. *)
Definition total (l : list Z) : Z := fold_right Z.add 0 l.


(** [a] is not older than [b]; a row without timestamp is older than all. *)
Definition not_older (a b : Row) : Prop :=
  match purchase_ts a, purchase_ts b with
  | Some x, Some y => y <= x
  | _, None => True
  | None, Some _ => False
  end.


(** A grouped reduction from given accumulators: rows without key are
    skipped, every other row changes the entry of its key. *)
Definition group_fold {K V} (eqb : K -> K -> bool) (v0 : V) (step : Row -> V -> V)
  (key : Row -> option K) (rows : list Row) (acc : list (K * V)) : list (K * V) :=
  fold_left (fun acc r =>
               match key r with
               | Some k => upsert eqb k v0 (step r) acc
               | None => acc
               end) rows acc.


(** *** Reading a document, stated without the lookup function *)

(** [binds d k v]: the first binding of [k] in [d] is [v]. *)
Inductive binds : dict -> string -> value -> Prop :=
| binds_first (k : string) (v : value) (d : dict) :
    binds ((k, v) :: d) k v
| binds_next (k k' : string) (v v' : value) (d : dict) :
    k <> k' -> binds d k v -> binds ((k', v') :: d) k v.

(** What [d.get(k, default)] is to return: the value bound to [k], or the
    default when [d] has no such key. *)
Definition reads (d : dict) (k : string) (default v : value) : Prop :=
  binds d k v \/ (~ In k (map fst d) /\ v = default).






End Spec.



(* ================================================================== *)
(** ** Sample data *)

Module Sample.
Import Frame Dashboard.

Definition item (q : Z) (c : string) : value :=
  VDoc [("quantity", VNum q); ("category", VStr c)].

(** An order with every field. *)
Definition full_doc : dict :=
  [("_id", VStr "o-1");
   ("purchase_ts", VDate 1704103200000000000);
   ("weekday", VStr "Monday"); ("hour", VNum 10);
   ("store", VDoc [("store_city", VStr "Boston"); ("region", VStr "East")]);
   ("channel", VStr "web");
   ("customer", VDoc [("loyalty_member", VBool true); ("age_band", VStr "25-34")]);
   ("discount_pct", VNum 10); ("total_amount", VNum 100);
   ("items", VList [item 1 "Shoes"; item 2 "Shoes"; item 1 "Hats"])].

(** An order that has only an identifier. *)
Definition bare_doc : dict := [("_id", VStr "o-2")].

(** An order whose store is an explicit null. *)
Definition null_store_doc : dict := [("_id", VStr "o-3"); ("store", VNull)].

Definition env_with (docs : result (list dict)) : Env :=
  {| py_str := fun v => match v with VStr s => s | _ => "None" end;
     parse_datetime := fun _ _ => None;
     driver_accepts := fun uri =>
       (String.prefix "mongodb://" uri || String.prefix "mongodb+srv://" uri)%bool;
     driver_error := fun _ =>
       "Invalid URI scheme: URI must begin with 'mongodb://' or 'mongodb+srv://'";
     server := fun _ _ => docs |}.

Definition uri : string := "mongodb+srv://cluster.example.net".

Definition collection : Resolver.Collection :=
  {| Resolver.coll_db :=
       {| Resolver.db_client :=
            {| Resolver.client_uri := uri; Resolver.client_tls := true |};
          Resolver.db_name := "retail" |};
     Resolver.coll_name := "orders" |}.

(** 2024-01-01 is day 19723 and a Monday. *)
Definition jan (d : Z) : Z := 19722 + d.
Definition at_time (day h m s : Z) : Z :=
  to_datetime_date day + ((h * 60 + m) * 60 + s) * NS_PER_SECOND.

Definition order (ts : option Z) (wd : option string) (h : option Z)
  (reg : option string) (loy : option bool) (amt : option Z) : Row :=
  {| purchase_ts := ts; weekday := wd; hour := h; region := reg;
     channel := Some "web"; loyalty_member := loy; age_band := Some "25-34";
     discount_pct := Some 10; total_amount := amt |}.

Definition monday_order : Row :=
  order (Some (at_time (jan 1) 10 0 0)) (Some "Monday") (Some 10)
        (Some "East") (Some true) (Some 100).

Definition wednesday_order : Row :=
  order (Some (at_time (jan 3) 15 30 0)) (Some "Wednesday") (Some 15)
        (Some "West") (Some false) (Some 200).

(** A member of unknown loyalty. *)
Definition unknown_loyalty_order : Row :=
  order (Some (at_time (jan 2) 9 0 0)) (Some "Tuesday") (Some 9)
        (Some "East") None (Some 50).

Definition last_second_order : Row :=
  order (Some (at_time (jan 3) 23 59 59)) (Some "Wednesday") (Some 23)
        (Some "East") (Some true) (Some 70).

Definition next_midnight_order : Row :=
  order (Some (at_time (jan 4) 0 0 0)) (Some "Thursday") (Some 0)
        (Some "East") (Some true) (Some 80).

Definition undated_order : Row :=
  order None None None (Some "East") (Some true) (Some 90).

Definition all_dates (d0 d1 : Z) : Filters :=
  {| date_start := d0; date_end := d1; sel_region := []; sel_channel := [];
     sel_loyalty := []; sel_age := [] |}.

Definition east_members (d0 d1 : Z) : Filters :=
  {| date_start := d0; date_end := d1; sel_region := ["East"];
     sel_channel := []; sel_loyalty := [true; false]; sel_age := [] |}.

(** An order whose customer is not a sub-record. *)
Definition bad_customer_doc : dict :=
  [("_id", VStr "o-4"); ("store", VDoc [("region", VStr "East")]);
   ("customer", VStr "anonymous")].

(** An order with fields the page does not use. *)
Definition verbose_doc : dict :=
  [("_id", VStr "o-5"); ("notes", VStr "gift wrap");
   ("store", VDoc [("store_city", VStr "Austin"); ("region", VStr "South");
                   ("manager", VStr "R. Diaz")]);
   ("customer", VDoc [("age_band", VStr "35-44"); ("email", VStr "x@example.net")]);
   ("total_amount", VNum 40);
   ("items", VList [item 3 "Socks"; VDoc [("category", VStr "Hats")]])].

(** An order without region. *)
Definition no_region_order : Row :=
  order (Some (at_time (jan 2) 18 45 0)) (Some "Tuesday") (Some 18)
        None (Some false) (Some 30).

(** An order without amount. *)
Definition no_amount_order : Row :=
  order (Some (at_time (jan 3) 8 0 0)) (Some "Wednesday") (Some 8)
        (Some "West") (Some true) None.

Definition week : list Row :=
  [wednesday_order; undated_order; monday_order; no_region_order;
   last_second_order; no_amount_order].

(** An order whose items are an explicit null. *)
Definition null_items_doc : dict := [("_id", VStr "o-6"); ("items", VNull)].



End Sample.


(* ================================================================== *)
(** * Properties *)

Import Resolver Loader App Frame Dashboard Spec.

(** ** Strings in order *)

Lemma ltb_lt (a b : string) : String.ltb a b = true <-> str_lt a b.
Proof.
  unfold String.ltb, str_lt. destruct (String.compare a b); split; congruence.
Qed.

Lemma str_lt_trans (a b c : string) : str_lt a b -> str_lt b c -> str_lt a c.
Proof.
  unfold str_lt. intros Hab Hbc.
  apply String_as_OT.cmp_lt. apply String_as_OT.cmp_lt in Hab, Hbc.
  exact (String_as_OT.lt_trans _ _ _ Hab Hbc).
Qed.

Lemma str_lt_total (a b : string) : a <> b -> String.ltb a b = false -> str_lt b a.
Proof.
  unfold String.ltb, str_lt. intros Hne Hlt.
  rewrite (String.compare_antisym b a).
  destruct (String.compare a b) eqn:E; simpl; try congruence.
  apply String.compare_eq_iff in E. contradiction.
Qed.

Lemma existsb_eqb_In (x : string) (l : list string) :
  existsb (String.eqb x) l = true <-> In x l.
Proof.
  rewrite existsb_exists. split.
  - intros [y [Hy He]]. apply String.eqb_eq in He. now subst.
  - intros H. exists x. split; [assumption | apply String.eqb_refl].
Qed.

Lemma py_set_In (x : string) (l : list string) : In x (py_set l) <-> In x l.
Proof.
  induction l as [|y l IH]; simpl; [tauto|].
  destruct (existsb (String.eqb y) l) eqn:E.
  - rewrite IH. apply existsb_eqb_In in E. split; [tauto|].
    intros [->|H]; assumption.
  - simpl. rewrite IH. tauto.
Qed.

Lemma py_set_NoDup (l : list string) : NoDup (py_set l).
Proof.
  induction l as [|y l IH]; simpl; [constructor|].
  destruct (existsb (String.eqb y) l) eqn:E; [assumption|].
  constructor; [|assumption].
  rewrite py_set_In. intros H. apply existsb_eqb_In in H. congruence.
Qed.

Lemma insert_sorted_In (x y : string) (l : list string) :
  In y (insert_sorted x l) <-> y = x \/ In y l.
Proof.
  induction l as [|z l IH]; simpl.
  - intuition.
  - destruct (String.ltb z x); simpl; [rewrite IH|]; intuition.
Qed.

Lemma insert_sorted_strongly (x : string) (l : list string) :
  StronglySorted str_lt l -> ~ In x l -> StronglySorted str_lt (insert_sorted x l).
Proof.
  induction l as [|z l IH]; simpl; intros Hs Hx.
  - constructor; constructor.
  - apply StronglySorted_inv in Hs. destruct Hs as [Hs Hz].
    destruct (String.ltb z x) eqn:E.
    + constructor; [apply IH; tauto|].
      apply Forall_forall. intros y Hy. apply insert_sorted_In in Hy.
      destruct Hy as [->|Hy]; [now apply ltb_lt|].
      rewrite Forall_forall in Hz. now apply Hz.
    + assert (Hxz : str_lt x z).
      { apply str_lt_total; [|assumption]. intros ->. apply Hx. now left. }
      constructor; [constructor; assumption|].
      constructor; [assumption|].
      apply Forall_forall. intros y Hy. rewrite Forall_forall in Hz.
      apply (str_lt_trans x z y); auto.
Qed.

Lemma sorted_In (y : string) (l : list string) : In y (sorted l) <-> In y l.
Proof.
  unfold sorted. induction l as [|x l IH]; simpl; [tauto|].
  rewrite insert_sorted_In, IH. intuition.
Qed.

Lemma sorted_strongly (l : list string) :
  NoDup l -> StronglySorted str_lt (sorted l).
Proof.
  induction 1 as [|x l Hx Hnd IH]; [constructor|].
  change (sorted (x :: l)) with (insert_sorted x (sorted l)).
  apply insert_sorted_strongly; [assumption|].
  intros H. apply -> sorted_In in H. contradiction.
Qed.

(** ** Documents *)

Lemma dict_get_absent (d : dict) (k : string) (default : value) :
  dict_has d k = false -> dict_get d k default = default.
Proof.
  induction d as [|[k' v] d IH]; simpl; [reflexivity|].
  destruct (String.eqb k k'); simpl; [discriminate|assumption].
Qed.

Lemma sum_quantities_ok (its : list value) (acc : Z) :
  forallb item_ok its = true ->
  py_sum_gen (fun it => attr_get it "quantity" (VNum 0)) acc its
  = Ok (acc + fold_right Z.add 0 (map quantity_of its)).
Proof.
  revert acc. induction its as [|it its IH]; simpl; intros acc H.
  - f_equal. lia.
  - apply andb_prop in H. destruct H as [Hit Hits].
    destruct it; simpl in Hit; try discriminate.
    simpl. destruct (dict_get kv "quantity" (VNum 0)); simpl in *; try discriminate.
    rewrite IH by assumption. f_equal. lia.
Qed.

Lemma set_of_categories_ok (its : list value) :
  forallb item_ok its = true ->
  py_set_gen (fun it => attr_get it "category" (VStr "")) its
  = Ok (map (fun it => VStr (category_label it)) its).
Proof.
  induction its as [|it its IH]; simpl; intros H; [reflexivity|].
  apply andb_prop in H. destruct H as [Hit Hits].
  destruct it; simpl in Hit; try discriminate.
  simpl. apply andb_prop in Hit. destruct Hit as [_ Hc].
  destruct (dict_get kv "category" (VStr "")); simpl in *; try discriminate.
  now rewrite IH.
Qed.

Lemma strings_of_strs (l : list string) : strings_of (map VStr l) = Ok l.
Proof.
  induction l as [|s l IH]; simpl; [reflexivity|]. now rewrite IH.
Qed.

Lemma categories_of_ok (its : list value) :
  forallb item_ok its = true ->
  categories_of its = Ok (join "," (sorted (py_set (map category_label its)))).
Proof.
  intros H. unfold categories_of. rewrite set_of_categories_ok by assumption.
  simpl. rewrite <- (map_map category_label VStr), strings_of_strs. reflexivity.
Qed.

Lemma flatten_ok (env : Env) (d : dict) :
  doc_ok d = true -> flatten env d = Ok (flat_row env d).
Proof.
  unfold doc_ok, flatten, flat_row, items_of, sub_record. intros H.
  apply andb_prop in H. destruct H as [H Hitems].
  apply andb_prop in H. destruct H as [Hstore Hcust].
  destruct (dict_get d "store" (VDoc [])) eqn:Es; simpl in Hstore; try discriminate.
  destruct (dict_get d "customer" (VDoc [])) eqn:Ec; simpl in Hcust; try discriminate.
  destruct (dict_get d "items" (VList [])) eqn:Ei; simpl in Hitems; try discriminate.
  simpl. rewrite sum_quantities_ok by assumption. simpl.
  rewrite categories_of_ok by assumption. reflexivity.
Qed.

Lemma mapM_flatten_ok (env : Env) (docs : list dict) :
  forallb doc_ok docs = true ->
  mapM (flatten env) docs = Ok (map (flat_row env) docs).
Proof.
  induction docs as [|d docs IH]; simpl; intros H; [reflexivity|].
  apply andb_prop in H. destruct H as [Hd Hdocs].
  rewrite flatten_ok by assumption. simpl. now rewrite IH.
Qed.


Lemma str_lt_irrefl (a : string) : ~ str_lt a a.
Proof.
  unfold str_lt. intros H. pose proof (String.compare_antisym a a) as E.
  rewrite H in E. discriminate.
Qed.

Lemma strongly_sorted_NoDup (l : list string) : StronglySorted str_lt l -> NoDup l.
Proof.
  induction 1 as [|x l Hs IH Hx]; constructor; [|assumption].
  intros Hin. rewrite Forall_forall in Hx. exact (str_lt_irrefl x (Hx x Hin)).
Qed.

(** A sub-record that is present but null is not a missing one: the lookup
    returns the null and [get] on it raises. *)
Lemma flatten_null_store_raises (env : Env) :
  flatten env Sample.null_store_doc = Raise AttributeError.
Proof. reflexivity. Qed.

(** ** The connection resolver *)

Lemma get_collection_ok (env : Env) (uri db coll : string) (log : list net_event) :
  falsy uri = false -> driver_accepts env uri = true ->
  get_collection env uri db coll log
  = (Ok {| coll_db := {| db_client := {| client_uri := uri; client_tls := true |};
                         db_name := db |};
           coll_name := coll |},
     log ++ [Connect uri true]).
Proof.
  intros H Hacc. unfold get_collection, net_bind, MongoClient.
  rewrite H, Hacc. reflexivity.
Qed.




(** ** The loader *)

Lemma load_orders_run (env : Env) (c : Collection) (log : list net_event)
  (docs : list dict) :
  server env (db_name (coll_db c)) (coll_name c) = Ok docs ->
  forallb doc_ok docs = true ->
  load_orders env c log
  = (Ok (match docs with
         | [] => empty_frame
         | _ :: _ => coerce_purchase_ts env (frame_of_rows (map (flat_row env) docs))
         end),
     log ++ [Aggregate (db_name (coll_db c)) (coll_name c)]).
Proof.
  intros Hs Hok. unfold load_orders, net_bind, aggregate. rewrite Hs.
  destruct docs as [|d docs]; [reflexivity|].
  unfold net_lift. rewrite mapM_flatten_ok by assumption. reflexivity.
Qed.


Lemma binds_In (d : dict) (k : string) (v : value) :
  binds d k v -> In k (map fst d).
Proof. induction 1; simpl; tauto. Qed.

(** What a document reads under a key is determined. *)
Lemma reads_functional (d : dict) (k : string) (default v v' : value) :
  reads d k default v -> reads d k default v' -> v = v'.
Proof.
  assert (B : forall v v', binds d k v -> binds d k v' -> v = v').
  { clear. intros v v' H. revert v'. induction H; intros w Hw; inversion Hw; subst;
      try reflexivity; try contradiction. now apply IHbinds. }
  intros [H|[H ->]] [H'|[H' ->]].
  - now apply B.
  - apply binds_In in H. contradiction.
  - apply binds_In in H'. contradiction.
  - reflexivity.
Qed.










(** C6. When the query returns no document the loader returns the empty
    frame, and the script shows the warning that no orders were found and
    stops; it shows no error. *)
Theorem no_documents_is_a_warning (env : Env) (uri db coll : string)
  (log : list net_event) :
  falsy uri = false ->
  driver_accepts env uri = true ->
  server env db coll = Ok [] ->
  (exists c, get_collection env uri db coll log = (Ok c, log ++ [Connect uri true])
             /\ load_orders env c (log ++ [Connect uri true])
                = (Ok empty_frame, (log ++ [Connect uri true]) ++ [Aggregate db coll]))
  /\ df_empty empty_frame = true
  /\ df_len empty_frame = 0%nat
  /\ startup env uri db coll log
     = ([Title page_title; WarningBox no_orders_message],
        Stopped,
        (log ++ [Connect uri true]) ++ [Aggregate db coll]).
Proof.
  intros Hu Hacc Hs.
  pose proof (get_collection_ok env uri db coll log Hu Hacc) as Hc.
  set (c := {| coll_db := {| db_client := {| client_uri := uri; client_tls := true |};
                             db_name := db |};
               coll_name := coll |}) in *.
  assert (Hload : load_orders env c (log ++ [Connect uri true])
                  = (Ok empty_frame, (log ++ [Connect uri true]) ++ [Aggregate db coll])).
  { apply (load_orders_run env c (log ++ [Connect uri true]) []);
      [assumption|reflexivity]. }
  split; [exists c; split; assumption|].
  split; [reflexivity|]. split; [reflexivity|].
  unfold startup, net_bind. rewrite Hc, Hload. reflexivity.
Qed.

Lemma no_documents_is_a_warning_witness :
  startup (Sample.env_with (Ok [])) Sample.uri "retail" "orders" []
  = ([Title page_title; WarningBox no_orders_message],
     Stopped,
     ([] ++ [Connect Sample.uri true]) ++ [Aggregate "retail" "orders"]).
Proof.
  apply (no_documents_is_a_warning (Sample.env_with (Ok [])) Sample.uri
           "retail" "orders" []); reflexivity.
Defined.

(** A query that fails takes the other exit: the error banner. *)
Lemma failed_query_is_an_error (env : Env) (uri db coll msg : string)
  (log : list net_event) :
  falsy uri = false ->
  driver_accepts env uri = true ->
  server env db coll = Raise (PyMongoError msg) ->
  startup env uri db coll log
  = ([Title page_title; ErrorBox (PyMongoError msg)],
     Stopped,
     (log ++ [Connect uri true]) ++ [Aggregate db coll]).
Proof.
  intros Hu Hacc Hs.
  unfold startup, net_bind, get_collection, net_bind, MongoClient.
  rewrite Hu, Hacc. unfold net_ret, load_orders, net_bind, aggregate. simpl.
  rewrite Hs. reflexivity.
Qed.

(** ** Masks *)

Lemma and_series_map {A} (p q : A -> bool) (l : list A) :
  and_series (map p l) (map q l) = map (fun x => (p x && q x)%bool) l.
Proof.
  induction l as [|x l IH]; simpl; [reflexivity|]. now rewrite IH.
Qed.

Lemma full_map (df : list Row) (b : bool) : full df b = map (fun _ => b) df.
Proof.
  unfold full. induction df as [|r df IH]; simpl; [reflexivity|]. now rewrite IH.
Qed.

Lemma boolean_index_map {A} (p : A -> bool) (l : list A) :
  boolean_index l (map p l) = filter p l.
Proof.
  induction l as [|x l IH]; simpl; [reflexivity|].
  destruct (p x); now rewrite IH.
Qed.

Lemma next_midnight (d : Z) :
  to_datetime_date d + Timedelta_days 1 = to_datetime_date (d + 1).
Proof. unfold to_datetime_date, Timedelta_days. ring. Qed.

Lemma date_mask_map (d0 d1 : Z) (df : list Row) :
  date_mask d0 d1 df = map (in_date_rangeb d0 d1) df.
Proof.
  unfold date_mask, ge_ts, lt_ts, col. rewrite full_map, !map_map.
  rewrite !and_series_map. apply map_ext. intros r.
  unfold in_date_rangeb. rewrite next_midnight.
  destruct (purchase_ts r); reflexivity.
Qed.

Lemma narrow_map {A} (eqb : A -> A -> bool) (field : Row -> option A)
  (sel : list A) (p : Row -> bool) (df : list Row) :
  (if truthy sel
   then and_series (map p df) (isin eqb (col field df) sel)
   else map p df)
  = map (fun r => (p r && allowedb eqb sel (field r))%bool) df.
Proof.
  destruct sel as [|x sel]; simpl.
  - apply map_ext. intros r. now rewrite andb_true_r.
  - unfold isin, col. rewrite map_map, and_series_map. reflexivity.
Qed.

Lemma build_mask_map (fs : Filters) (df : list Row) :
  build_mask fs df = map (passesb fs) df.
Proof.
  unfold build_mask. rewrite date_mask_map. rewrite !narrow_map. reflexivity.
Qed.

Lemma in_date_rangeb_iff (d0 d1 : Z) (r : Row) :
  in_date_rangeb d0 d1 r = true <-> in_date_range d0 d1 r.
Proof.
  unfold in_date_rangeb, in_date_range. destruct (purchase_ts r) as [t|].
  - rewrite andb_true_iff, Z.leb_le, Z.ltb_lt. split.
    + intros H. exists t. tauto.
    + intros [t' [E H]]. injection E as <-. tauto.
  - split; [discriminate|]. intros [t [E _]]. discriminate.
Qed.

Lemma allowedb_iff {A} (eqb : A -> A -> bool) (sel : list A) (v : option A) :
  (forall x y, eqb x y = true <-> x = y) ->
  allowedb eqb sel v = true <-> allowed sel v.
Proof.
  intros Heq. unfold allowedb, allowed. destruct sel as [|a sel].
  - split; [now left | reflexivity].
  - destruct v as [x|].
    + rewrite existsb_exists. split.
      * intros [y [Hy E]]. apply Heq in E. subst. right. exists y. tauto.
      * intros [H|[y [E Hy]]]; [discriminate|]. injection E as <-.
        exists x. split; [assumption | now apply Heq].
    + split; [discriminate|]. intros [H|[y [E _]]]; discriminate.
Qed.

Lemma bool_eqb_iff (x y : bool) : Bool.eqb x y = true <-> x = y.
Proof. destruct x, y; simpl; split; congruence. Qed.

Lemma passesb_iff (fs : Filters) (r : Row) : passesb fs r = true <-> passes fs r.
Proof.
  unfold passesb, passes. rewrite !andb_true_iff, in_date_rangeb_iff.
  rewrite !(allowedb_iff String.eqb) by apply String.eqb_eq.
  rewrite (allowedb_iff Bool.eqb) by apply bool_eqb_iff.
  tauto.
Qed.

(** C3. The date line of the mask keeps a row exactly when its timestamp
    lies from the midnight that starts the first date up to, and not
    including, the midnight that ends the last date.  A row at the last
    second of the last date is kept, a row at the next midnight is not,
    and a row without a timestamp is not. *)
Theorem date_filter_half_open (d0 d1 : Z) (df : list Row) :
  boolean_index df (date_mask d0 d1 df) = filter (in_date_rangeb d0 d1) df
  /\ (forall r, In r (boolean_index df (date_mask d0 d1 df))
                <-> In r df
                    /\ exists t, purchase_ts r = Some t
                                 /\ to_datetime_date d0 <= t < to_datetime_date (d1 + 1))
  /\ (forall r, In r df -> d0 <= d1 -> purchase_ts r = Some (last_second d1) ->
                In r (boolean_index df (date_mask d0 d1 df)))
  /\ (forall r, purchase_ts r = Some (to_datetime_date (d1 + 1)) ->
                ~ In r (boolean_index df (date_mask d0 d1 df)))
  /\ (forall r, purchase_ts r = None ->
                ~ In r (boolean_index df (date_mask d0 d1 df))).
Proof.
  assert (E : boolean_index df (date_mask d0 d1 df) = filter (in_date_rangeb d0 d1) df)
    by (rewrite date_mask_map; apply boolean_index_map).
  assert (I : forall r, In r (boolean_index df (date_mask d0 d1 df))
                        <-> In r df /\ in_date_range d0 d1 r).
  { intros r. rewrite E, filter_In, in_date_rangeb_iff. reflexivity. }
  split; [exact E|]. split; [exact I|].
  split; [|split].
  - intros r Hin Hle Hts. apply I. split; [assumption|].
    exists (last_second d1). split; [assumption|].
    unfold last_second, to_datetime_date, NS_PER_DAY, NS_PER_SECOND. lia.
  - intros r Hts Hin. apply I in Hin. destruct Hin as [_ [t [Et Ht]]].
    rewrite Hts in Et. injection Et as <-. lia.
  - intros r Hts Hin. apply I in Hin. destruct Hin as [_ [t [Et _]]].
    congruence.
Qed.

Lemma date_filter_half_open_witness :
  In Sample.last_second_order
     (boolean_index [Sample.last_second_order; Sample.next_midnight_order;
                     Sample.undated_order]
        (date_mask (Sample.jan 1) (Sample.jan 3)
           [Sample.last_second_order; Sample.next_midnight_order;
            Sample.undated_order]))
  /\ ~ In Sample.next_midnight_order
       (boolean_index [Sample.last_second_order; Sample.next_midnight_order;
                       Sample.undated_order]
          (date_mask (Sample.jan 1) (Sample.jan 3)
             [Sample.last_second_order; Sample.next_midnight_order;
              Sample.undated_order]))
  /\ ~ In Sample.undated_order
       (boolean_index [Sample.last_second_order; Sample.next_midnight_order;
                       Sample.undated_order]
          (date_mask (Sample.jan 1) (Sample.jan 3)
             [Sample.last_second_order; Sample.next_midnight_order;
              Sample.undated_order])).
Proof.
  destruct (date_filter_half_open (Sample.jan 1) (Sample.jan 3)
              [Sample.last_second_order; Sample.next_midnight_order;
               Sample.undated_order]) as [_ [_ [Hlast [Hnext Hnull]]]].
  split; [|split].
  - apply Hlast; [simpl; tauto | unfold Sample.jan; lia | reflexivity].
  - apply Hnext. reflexivity.
  - apply Hnull. reflexivity.
Defined.

Lemma filtered_filter (fs : Filters) (df : list Row) :
  filtered fs df = filter (passesb fs) df.
Proof. unfold filtered. rewrite build_mask_map. apply boolean_index_map. Qed.

Lemma filtered_In (fs : Filters) (df : list Row) (r : Row) :
  In r (filtered fs df) <-> In r df /\ passes fs r.
Proof. rewrite filtered_filter, filter_In, passesb_iff. reflexivity. Qed.

(** C4. The filtered rows are the rows of the dataset, in their order,
    that lie in the date range and pass each of the four selections, and a
    selection that is empty lets every row pass. *)
Theorem filtered_is_conjunction (fs : Filters) (df : list Row) :
  filtered fs df = filter (passesb fs) df
  /\ (forall r, passesb fs r = true <-> passes fs r)
  /\ (forall r, In r (filtered fs df)
                <-> In r df
                    /\ in_date_range (date_start fs) (date_end fs) r
                    /\ (sel_region fs = []
                        \/ exists x, region r = Some x /\ In x (sel_region fs))
                    /\ (sel_channel fs = []
                        \/ exists x, channel r = Some x /\ In x (sel_channel fs))
                    /\ (sel_loyalty fs = []
                        \/ exists x, loyalty_member r = Some x /\ In x (sel_loyalty fs))
                    /\ (sel_age fs = []
                        \/ exists x, age_band r = Some x /\ In x (sel_age fs))).
Proof.
  split; [apply filtered_filter|]. split; [apply passesb_iff|].
  intros r. apply filtered_In.
Qed.

(** C10. A row that is null in a dimension is left out as soon as something
    is selected in that dimension.  For loyalty, selecting both true and
    false leaves out the rows of unknown loyalty, which selecting nothing
    keeps. *)
Theorem null_excluded_by_nonempty_selection (fs : Filters) (df : list Row) (r : Row) :
  (loyalty_member r = None -> sel_loyalty fs <> [] -> ~ In r (filtered fs df))
  /\ (region r = None -> sel_region fs <> [] -> ~ In r (filtered fs df))
  /\ (channel r = None -> sel_channel fs <> [] -> ~ In r (filtered fs df))
  /\ (age_band r = None -> sel_age fs <> [] -> ~ In r (filtered fs df))
  /\ (loyalty_member r = None -> In r (filtered (with_loyalty fs []) df) ->
        ~ In r (filtered (with_loyalty fs [true; false]) df)
        /\ filtered (with_loyalty fs [true; false]) df
           <> filtered (with_loyalty fs []) df).
Proof.
  assert (Hnull : forall (A : Type) (sel : list A) (v : option A),
             v = None -> sel <> [] -> ~ allowed sel v).
  { intros A sel v Hv Hsel [H|[x [E _]]]; congruence. }
  pose proof (filtered_In fs df) as Hin. unfold passes in Hin.
  repeat match goal with |- _ /\ _ => split end.
  - intros Hv Hsel H. apply Hin in H. apply (Hnull _ _ _ Hv Hsel).
    unfold allowed. tauto.
  - intros Hv Hsel H. apply Hin in H. apply (Hnull _ _ _ Hv Hsel).
    unfold allowed. tauto.
  - intros Hv Hsel H. apply Hin in H. apply (Hnull _ _ _ Hv Hsel).
    unfold allowed. tauto.
  - intros Hv Hsel H. apply Hin in H. apply (Hnull _ _ _ Hv Hsel).
    unfold allowed. tauto.
  - intros Hv Hkept.
    assert (Hout : ~ In r (filtered (with_loyalty fs [true; false]) df)).
    { intros H.
      apply filtered_In in H. unfold passes in H.
      apply (Hnull _ [true; false] _ Hv); [discriminate|].
      simpl in H. tauto. }
    split; [assumption|]. intros E. rewrite E in Hout. contradiction.
Qed.

Lemma null_excluded_by_nonempty_selection_witness :
  ~ In Sample.unknown_loyalty_order
      (filtered (with_loyalty (Sample.all_dates (Sample.jan 1) (Sample.jan 3))
                   [true; false])
         [Sample.monday_order; Sample.unknown_loyalty_order])
  /\ filtered (with_loyalty (Sample.all_dates (Sample.jan 1) (Sample.jan 3))
                 [true; false])
       [Sample.monday_order; Sample.unknown_loyalty_order]
     <> filtered (with_loyalty (Sample.all_dates (Sample.jan 1) (Sample.jan 3)) [])
          [Sample.monday_order; Sample.unknown_loyalty_order].
Proof.
  apply (null_excluded_by_nonempty_selection
           (Sample.all_dates (Sample.jan 1) (Sample.jan 3))
           [Sample.monday_order; Sample.unknown_loyalty_order]
           Sample.unknown_loyalty_order).
  - reflexivity.
  - vm_compute. tauto.
Defined.

(** ** Aggregates of no rows *)

(** C8. When the filter leaves no row, every aggregate still has a value:
    the count and the revenue are 0, the two means are NaN, the series and
    the grouped results are empty, and the weekday table has its seven
    rows and no column. *)
Theorem aggregates_of_empty (fs : Filters) (df : list Row) :
  filtered fs df = [] ->
  aggregates (filtered fs df) = empty_aggregates
  /\ order_count (filtered fs df) = 0%nat
  /\ total_revenue (filtered fs df) = 0
  /\ avg_order_value (filtered fs df) = None
  /\ avg_discount_pct (filtered fs df) = None.
Proof.
  intros E. rewrite E. repeat split.
Qed.

Lemma aggregates_of_empty_witness :
  aggregates (filtered (Sample.east_members (Sample.jan 2) (Sample.jan 2))
                [Sample.monday_order; Sample.wednesday_order]) = empty_aggregates
  /\ order_count (filtered (Sample.east_members (Sample.jan 2) (Sample.jan 2))
                    [Sample.monday_order; Sample.wednesday_order]) = 0%nat
  /\ total_revenue (filtered (Sample.east_members (Sample.jan 2) (Sample.jan 2))
                      [Sample.monday_order; Sample.wednesday_order]) = 0
  /\ avg_order_value (filtered (Sample.east_members (Sample.jan 2) (Sample.jan 2))
                        [Sample.monday_order; Sample.wednesday_order]) = None
  /\ avg_discount_pct (filtered (Sample.east_members (Sample.jan 2) (Sample.jan 2))
                         [Sample.monday_order; Sample.wednesday_order]) = None.
Proof.
  apply (aggregates_of_empty (Sample.east_members (Sample.jan 2) (Sample.jan 2))
           [Sample.monday_order; Sample.wednesday_order]).
  vm_compute. reflexivity.
Defined.

(** ** Grouped accumulation *)

Section Upsert.
Context {K V : Type} (eqb : K -> K -> bool).
Hypothesis eqb_eq : forall x y, eqb x y = true <-> x = y.

Lemma eqb_same (x : K) : eqb x x = true.
Proof. now apply eqb_eq. Qed.

Lemma eqb_other (x y : K) : x <> y -> eqb x y = false.
Proof.
  intros H. destruct (eqb x y) eqn:E; [|reflexivity].
  apply eqb_eq in E. contradiction.
Qed.

Lemma upsert_keys_present (k : K) (v0 : V) (f : V -> V) (acc : list (K * V)) :
  In k (map fst acc) -> map fst (upsert eqb k v0 f acc) = map fst acc.
Proof.
  induction acc as [|[k' v] acc IH]; simpl; [tauto|]. intros H.
  destruct (eqb k k') eqn:E; simpl; [reflexivity|].
  f_equal. apply IH. destruct H as [H|H]; [|assumption].
  subst. rewrite eqb_same in E. discriminate.
Qed.

Lemma upsert_keys_new (k : K) (v0 : V) (f : V -> V) (acc : list (K * V)) :
  ~ In k (map fst acc) -> map fst (upsert eqb k v0 f acc) = map fst acc ++ [k].
Proof.
  induction acc as [|[k' v] acc IH]; simpl; [reflexivity|]. intros H.
  rewrite eqb_other by (intros ->; tauto). simpl. f_equal. apply IH. tauto.
Qed.

Lemma lookup_upsert_same (k : K) (v0 : V) (f : V -> V) (acc : list (K * V)) :
  lookup eqb k (upsert eqb k v0 f acc)
  = Some (f (match lookup eqb k acc with Some v => v | None => v0 end)).
Proof.
  induction acc as [|[k' v] acc IH]; simpl.
  - now rewrite eqb_same.
  - destruct (eqb k k') eqn:E; simpl; rewrite E; [reflexivity | exact IH].
Qed.

Lemma lookup_upsert_other (k k0 : K) (v0 : V) (f : V -> V) (acc : list (K * V)) :
  k0 <> k -> lookup eqb k0 (upsert eqb k v0 f acc) = lookup eqb k0 acc.
Proof.
  intros Hne. induction acc as [|[k' v] acc IH]; simpl.
  - now rewrite eqb_other.
  - destruct (eqb k k') eqn:E; simpl.
    + apply eqb_eq in E. subst k'. now rewrite eqb_other.
    + destruct (eqb k0 k'); [reflexivity | exact IH].
Qed.

Lemma lookup_None (k : K) (acc : list (K * V)) :
  lookup eqb k acc = None <-> ~ In k (map fst acc).
Proof.
  induction acc as [|[k' v] acc IH]; simpl; [tauto|].
  destruct (eqb k k') eqn:E.
  - apply eqb_eq in E. subst. split; [discriminate | tauto].
  - rewrite IH. split; [|tauto]. intros H [H'|H']; [|tauto].
    subst. rewrite eqb_same in E. discriminate.
Qed.

Lemma lookup_In (k : K) (v : V) (acc : list (K * V)) :
  lookup eqb k acc = Some v -> In k (map fst acc).
Proof.
  induction acc as [|[k' v'] acc IH]; simpl; [discriminate|].
  destruct (eqb k k') eqn:E; [|tauto].
  apply eqb_eq in E. subst. tauto.
Qed.

(** A list of bindings with distinct keys is the table of its lookups. *)
Lemma bindings_by_lookup (g : K -> V) (acc : list (K * V)) :
  NoDup (map fst acc) ->
  (forall k, In k (map fst acc) -> lookup eqb k acc = Some (g k)) ->
  acc = map (fun k => (k, g k)) (map fst acc).
Proof.
  induction acc as [|[k v] acc IH]; simpl; intros Hnd Hl; [reflexivity|].
  apply NoDup_cons_iff in Hnd. destruct Hnd as [Hk Hnd].
  pose proof (Hl k (or_introl eq_refl)) as Hv. rewrite eqb_same in Hv.
  injection Hv as ->. f_equal. apply IH; [assumption|].
  intros k' Hk'. specialize (Hl k' (or_intror Hk')).
  rewrite eqb_other in Hl by (intros ->; contradiction). exact Hl.
Qed.

End Upsert.

(** ** The daily series *)

Lemma NS_PER_DAY_pos : 0 < NS_PER_DAY.
Proof. reflexivity. Qed.

Lemma stamps_In (x : Z) (rows : list Row) :
  In x (stamps rows) <-> exists r, In r rows /\ purchase_ts r = Some x.
Proof.
  unfold stamps. rewrite in_flat_map. split.
  - intros [r [Hr Hx]]. exists r. split; [assumption|].
    destruct (purchase_ts r); simpl in Hx; [|tauto].
    destruct Hx as [->|[]]. reflexivity.
  - intros [r [Hr Hx]]. exists r. split; [assumption|]. rewrite Hx. now left.
Qed.

Lemma fold_min_spec (ts : list Z) (t : Z) :
  In (fold_left Z.min ts t) (t :: ts)
  /\ forall x, In x (t :: ts) -> fold_left Z.min ts t <= x.
Proof.
  revert t. induction ts as [|y ts IH]; intros t; simpl.
  - split; [now left|]. intros x [->|[]]. lia.
  - destruct (IH (Z.min t y)) as [Hin Hle]. split.
    + destruct Hin as [E|Hin]; [|tauto]. rewrite <- E.
      destruct (Z.min_spec t y) as [[_ ->]|[_ ->]]; tauto.
    + intros x Hx. pose proof (Hle (Z.min t y) (or_introl eq_refl)) as Hm.
      destruct Hx as [->|[->|Hx]]; [lia | lia |].
      apply Hle. now right.
Qed.

Lemma fold_max_spec (ts : list Z) (t : Z) :
  In (fold_left Z.max ts t) (t :: ts)
  /\ forall x, In x (t :: ts) -> x <= fold_left Z.max ts t.
Proof.
  revert t. induction ts as [|y ts IH]; intros t; simpl.
  - split; [now left|]. intros x [->|[]]. lia.
  - destruct (IH (Z.max t y)) as [Hin Hle]. split.
    + destruct Hin as [E|Hin]; [|tauto]. rewrite <- E.
      destruct (Z.max_spec t y) as [[_ ->]|[_ ->]]; tauto.
    + intros x Hx. pose proof (Hle (Z.max t y) (or_introl eq_refl)) as Hm.
      destruct Hx as [->|[->|Hx]]; [lia | lia |].
      apply Hle. now right.
Qed.

Lemma day_range_In (first d : Z) (n : nat) :
  In d (day_range first n) <-> first <= d < first + Z.of_nat n.
Proof.
  unfold day_range. rewrite in_map_iff. split.
  - intros [i [<- Hi]]. apply in_seq in Hi. lia.
  - intros H. exists (Z.to_nat (d - first)). split; [lia|].
    apply in_seq. lia.
Qed.

Lemma day_range_succ (first : Z) (n : nat) :
  day_range first (S n) = first :: day_range (first + 1) n.
Proof.
  unfold day_range. simpl. rewrite <- seq_shift, map_map. f_equal; [f_equal; lia|].
  apply map_ext. intros i. lia.
Qed.

Lemma day_range_sorted (first : Z) (n : nat) :
  StronglySorted Z.lt (map to_datetime_date (day_range first n)).
Proof.
  revert first. induction n as [|n IH]; intros first; [constructor|].
  rewrite day_range_succ. simpl. constructor; [apply IH|].
  apply Forall_forall. intros t Ht. apply in_map_iff in Ht.
  destruct Ht as [d [<- Hd]]. apply day_range_In in Hd.
  unfold to_datetime_date. pose proof NS_PER_DAY_pos. nia.
Qed.

Lemma day_range_NoDup (first : Z) (n : nat) : NoDup (day_range first n).
Proof.
  revert first. induction n as [|n IH]; intros first; [constructor|].
  rewrite day_range_succ. constructor; [|apply IH].
  rewrite day_range_In. lia.
Qed.


Lemma revenue_on_cons (d : Z) (r : Row) (rows : list Row) :
  revenue_on d (r :: rows)
  = (match purchase_ts r with
     | Some x => if day_of x =? d then addend (total_amount r) else 0
     | None => 0
     end) + revenue_on d rows.
Proof.
  unfold revenue_on. simpl.
  destruct (purchase_ts r) as [x|]; [|reflexivity].
  destruct (day_of x =? d); reflexivity.
Qed.

Lemma revenue_on_no_row (d : Z) (rows : list Row) :
  (forall r x, In r rows -> purchase_ts r = Some x -> day_of x <> d) ->
  revenue_on d rows = 0.
Proof.
  induction rows as [|r rows IH]; intros H; [reflexivity|].
  rewrite revenue_on_cons, IH by (intros r' x Hr; apply H; now right).
  destruct (purchase_ts r) as [x|] eqn:E; [|reflexivity].
  destruct (day_of x =? d) eqn:Ed; [|reflexivity].
  apply Z.eqb_eq in Ed. exfalso. exact (H r x (or_introl eq_refl) E Ed).
Qed.

Lemma fill_bins (rows : list Row) (acc : list (Z * Z)) :
  (forall r x, In r rows -> purchase_ts r = Some x -> In (day_of x) (map fst acc)) ->
  map fst (fold_left (add_to_bin total_amount) rows acc) = map fst acc
  /\ forall d v, lookup Z.eqb d acc = Some v ->
       lookup Z.eqb d (fold_left (add_to_bin total_amount) rows acc)
       = Some (v + revenue_on d rows).
Proof.
  revert acc. induction rows as [|r rows IH]; intros acc Hin; simpl.
  - split; [reflexivity|]. intros d v Hv. rewrite Hv. f_equal.
    unfold revenue_on. simpl. lia.
  - assert (Hk : map fst (add_to_bin total_amount acc r) = map fst acc).
    { unfold add_to_bin. destruct (purchase_ts r) as [x|] eqn:E; [|reflexivity].
      apply (upsert_keys_present Z.eqb Z.eqb_eq).
      apply (Hin r x); [now left | assumption]. }
    destruct (IH (add_to_bin total_amount acc r)) as [Hkeys Hvals].
    { intros r' x Hr' Hx. rewrite Hk. apply (Hin r' x); [now right | assumption]. }
    split; [congruence|].
    intros d v Hv. rewrite revenue_on_cons.
    unfold add_to_bin in *. destruct (purchase_ts r) as [x|] eqn:E.
    + destruct (day_of x =? d) eqn:Ed.
      * apply Z.eqb_eq in Ed. subst d.
        rewrite (Hvals (day_of x) (v + addend (total_amount r))).
        { f_equal; lia. }
        rewrite (lookup_upsert_same Z.eqb Z.eqb_eq), Hv. reflexivity.
      * apply Z.eqb_neq in Ed.
        rewrite (Hvals d v); [f_equal; lia|].
        rewrite (lookup_upsert_other Z.eqb Z.eqb_eq) by congruence. exact Hv.
    + rewrite (Hvals d v Hv). f_equal; lia.
Qed.

Lemma lookup_fresh_bins (d : Z) (days : list Z) :
  In d days -> lookup Z.eqb d (map (fun d => (d, 0)) days) = Some 0.
Proof.
  induction days as [|d' days IH]; simpl; [tauto|]. intros H.
  destruct (d =? d') eqn:E; [reflexivity|]. apply IH.
  destruct H as [H|H]; [|assumption]. subst. rewrite Z.eqb_refl in E. discriminate.
Qed.

Lemma day_of_midnight (d : Z) : day_of (to_datetime_date d) = d.
Proof.
  unfold day_of, to_datetime_date. apply Z.div_mul.
  pose proof NS_PER_DAY_pos. lia.
Qed.

(** The daily series in closed form: the bins are the days from the day of
    the earliest timestamp to the day of the latest, each with the revenue
    of its day. *)
Lemma daily_closed_form (f : list Row) (t : Z) (ts : list Z) :
  stamps f = t :: ts ->
  daily f
  = map (fun d => (to_datetime_date d, revenue_on d f))
        (day_range (day_of (fold_left Z.min ts t))
           (Z.to_nat (day_of (fold_left Z.max ts t)
                      - day_of (fold_left Z.min ts t) + 1))).
Proof.
  intros Hst. unfold daily, resample_D_sum. rewrite Hst.
  set (first := day_of (fold_left Z.min ts t)).
  set (last := day_of (fold_left Z.max ts t)).
  set (days := day_range first (Z.to_nat (last - first + 1))).
  cbv zeta.
  destruct (fold_min_spec ts t) as [_ Hmin].
  destruct (fold_max_spec ts t) as [_ Hmax].
  assert (Hdays : forall r x, In r f -> purchase_ts r = Some x -> In (day_of x) days).
  { intros r x Hr Hx.
    assert (Hs : In x (t :: ts)) by (rewrite <- Hst; apply stamps_In; eauto).
    apply day_range_In. unfold first, last, day_of.
    pose proof (Z.div_le_mono _ _ NS_PER_DAY NS_PER_DAY_pos (Hmin x Hs)).
    pose proof (Z.div_le_mono _ _ NS_PER_DAY NS_PER_DAY_pos (Hmax x Hs)).
    lia. }
  assert (Hfst : map fst (map (fun d : Z => (d, 0)) days) = days).
  { rewrite map_map. simpl. apply map_id. }
  destruct (fill_bins f (map (fun d => (d, 0)) days)) as [Hkeys Hvals].
  { intros r x Hr Hx. rewrite Hfst. now apply (Hdays r x). }
  rewrite Hfst in Hkeys.
  rewrite (bindings_by_lookup Z.eqb Z.eqb_eq (fun d => revenue_on d f)
             (fold_left (add_to_bin total_amount) f (map (fun d => (d, 0)) days))).
  - rewrite Hkeys, !map_map. reflexivity.
  - rewrite Hkeys. apply day_range_NoDup.
  - rewrite Hkeys. intros d Hd.
    rewrite (Hvals d 0) by now apply lookup_fresh_bins. reflexivity.
Qed.

(** C2 as stated fails.  The series is claimed to have no point for a day
    without a row:
    with one order on 1 January and one on 3 January the series has a
    point for 2 January. *)
Lemma daily_fills_gap_days :
  ~ only_days_with_rows [Sample.monday_order; Sample.wednesday_order].
Proof.
  intros H.
  destruct (H (to_datetime_date (Sample.jan 2), 0)) as [r [x [Hr [Hx Hd]]]].
  - vm_compute. tauto.
  - simpl in Hr. destruct Hr as [<-|[<-|[]]];
      injection Hx as <-; vm_compute in Hd; discriminate.
Qed.

(** C2, as the code has it.  The daily series has one point for every
    calendar day from the day of the earliest order to the day of the
    latest, in increasing order, whether or not the day has an order; the
    point of a day is the sum of the amounts of the orders of that day,
    which is 0 for a day without orders.  The first and the last day have
    an order, and no order falls outside. *)
Theorem daily_covers_every_day_of_span (f : list Row) :
  exists first n,
    daily f = map (fun d => (to_datetime_date d, revenue_on d f)) (day_range first n)
    /\ StronglySorted Z.lt (map fst (daily f))
    /\ (forall r x, In r f -> purchase_ts r = Some x ->
                    first <= day_of x < first + Z.of_nat n)
    /\ (n <> 0%nat ->
        day_has_row f (to_datetime_date first)
        /\ day_has_row f (to_datetime_date (first + Z.of_nat n - 1)))
    /\ (forall d, (forall r x, In r f -> purchase_ts r = Some x -> day_of x <> d) ->
                  revenue_on d f = 0).
Proof.
  destruct (stamps f) as [|t ts] eqn:Hst.
  - exists 0, 0%nat.
    split; [unfold daily, resample_D_sum; now rewrite Hst|].
    split; [unfold daily, resample_D_sum; rewrite Hst; constructor|].
    split.
    { intros r x Hr Hx. exfalso.
      assert (Hin : In x (stamps f)) by (apply stamps_In; eauto).
      rewrite Hst in Hin. exact Hin. }
    split; [congruence|]. intros d Hd. now apply revenue_on_no_row.
  - destruct (fold_min_spec ts t) as [Hmin_in Hmin].
    destruct (fold_max_spec ts t) as [Hmax_in Hmax].
    set (lo := fold_left Z.min ts t) in *.
    set (hi := fold_left Z.max ts t) in *.
    assert (Hspan : day_of lo <= day_of hi).
    { unfold day_of. apply Z.div_le_mono; [apply NS_PER_DAY_pos|].
      apply Hmin. exact Hmax_in. }
    exists (day_of lo), (Z.to_nat (day_of hi - day_of lo + 1)).
    pose proof (daily_closed_form f t ts Hst) as Hd. fold lo hi in Hd.
    split; [exact Hd|].
    split.
    { rewrite Hd, map_map. simpl. apply day_range_sorted. }
    split.
    { intros r x Hr Hx.
      assert (Hs : In x (t :: ts)) by (rewrite <- Hst; apply stamps_In; eauto).
      unfold day_of.
      pose proof (Z.div_le_mono _ _ NS_PER_DAY NS_PER_DAY_pos (Hmin x Hs)).
      pose proof (Z.div_le_mono _ _ NS_PER_DAY NS_PER_DAY_pos (Hmax x Hs)).
      fold (day_of lo) (day_of hi) (day_of x) in *. lia. }
    split; [|intros d Hno; now apply revenue_on_no_row].
    intros _. rewrite <- Hst in Hmin_in, Hmax_in.
    apply stamps_In in Hmin_in. apply stamps_In in Hmax_in.
    destruct Hmin_in as [r1 [Hr1 Hx1]]. destruct Hmax_in as [r2 [Hr2 Hx2]].
    split.
    + exists r1, lo. tauto.
    + exists r2, hi. repeat split; try assumption. f_equal. lia.
Qed.

(** ** The weekday table *)

Lemma insert_by_In {A} (before : A -> A -> bool) (x y : A) (l : list A) :
  In y (insert_by before x l) <-> y = x \/ In y l.
Proof.
  induction l as [|z l IH]; simpl.
  - intuition.
  - destruct (before z x); simpl; [rewrite IH|]; intuition.
Qed.

Lemma sort_by_In {A} (before : A -> A -> bool) (y : A) (l : list A) :
  In y (sort_by before l) <-> In y l.
Proof.
  unfold sort_by. induction l as [|x l IH]; simpl; [tauto|].
  rewrite insert_by_In, IH. intuition.
Qed.

Lemma dedup_In {A} (eqb : A -> A -> bool) (x : A) (l : list A) :
  (forall a b, eqb a b = true <-> a = b) ->
  In x (dedup eqb l) <-> In x l.
Proof.
  intros Heq. induction l as [|y l IH]; simpl; [tauto|].
  destruct (existsb (eqb y) l) eqn:E.
  - rewrite IH. split; [tauto|]. intros [<-|H]; [|assumption].
    apply existsb_exists in E. destruct E as [z [Hz Ez]].
    apply Heq in Ez. now subst.
  - simpl. rewrite IH. tauto.
Qed.

Lemma position_nth_error (w : string) (l : list string) (i : nat) :
  position w l = Some i -> nth_error l i = Some w.
Proof.
  revert i. induction l as [|x l IH]; simpl; intros i H; [discriminate|].
  destruct (String.eqb w x) eqn:E.
  - injection H as <-. apply String.eqb_eq in E. now subst.
  - destruct (position w l) as [j|]; [|discriminate].
    injection H as <-. simpl. now apply IH.
Qed.

Lemma position_In (w : string) (l : list string) :
  In w l -> exists i, position w l = Some i.
Proof.
  induction l as [|x l IH]; simpl; [tauto|]. intros H.
  destruct (String.eqb w x) eqn:E; [eauto|].
  destruct H as [H|H]; [subst; rewrite String.eqb_refl in E; discriminate|].
  destruct (IH H) as [i ->]. eauto.
Qed.

Lemma position_absent (w : string) (l : list string) :
  ~ In w l -> position w l = None.
Proof.
  induction l as [|x l IH]; simpl; [reflexivity|]. intros H.
  destruct (String.eqb w x) eqn:E.
  - apply String.eqb_eq in E. subst. tauto.
  - rewrite IH by tauto. reflexivity.
Qed.

Lemma find_col_map (h : Z) (cols : list Z) (g : Z -> option Z) :
  In h cols -> find_col h cols (map g cols) = Some (g h).
Proof.
  induction cols as [|c cols IH]; simpl; [tauto|]. intros H.
  destruct (h =? c) eqn:E.
  - apply Z.eqb_eq in E. now subst.
  - apply IH. destruct H as [H|H]; [|assumption].
    subst. rewrite Z.eqb_refl in E. discriminate.
Qed.

Lemma find_col_blank (h : Z) (cols : list Z) :
  In h cols -> find_col h cols (repeat None (List.length cols)) = Some None.
Proof.
  induction cols as [|c cols IH]; simpl; [tauto|]. intros H.
  destruct (h =? c) eqn:E; [reflexivity|].
  apply IH. destruct H as [H|H]; [|assumption].
  subst. rewrite Z.eqb_refl in E. discriminate.
Qed.

Section GroupSum.
Context {K : Type} (eqb : K -> K -> bool).
Hypothesis eqb_eq : forall x y, eqb x y = true <-> x = y.
Context (key : Row -> option K) (val : Row -> option Z).

Lemma group_total_none (k : K) (rows : list Row) :
  existsb (has_key eqb key k) rows = false -> group_total eqb key val k rows = 0.
Proof.
  unfold group_total. induction rows as [|r rows IH]; simpl; [reflexivity|].
  intros H. apply orb_false_elim in H. destruct H as [Hr Hrows].
  rewrite Hr. now apply IH.
Qed.

Lemma group_total_cons (k : K) (r : Row) (rows : list Row) :
  group_total eqb key val k (r :: rows)
  = (if has_key eqb key k r then addend (val r) else 0)
    + group_total eqb key val k rows.
Proof.
  unfold group_total. simpl. destruct (has_key eqb key k r); reflexivity.
Qed.

Lemma group_fold_lookup (rows : list Row) (acc : list (K * Z)) (k : K) :
  lookup eqb k
    (fold_left (fun acc r =>
                  match key r with
                  | Some k => upsert eqb k 0 (fun s => s + addend (val r)) acc
                  | None => acc
                  end) rows acc)
  = match lookup eqb k acc with
    | Some v => Some (v + group_total eqb key val k rows)
    | None => if existsb (has_key eqb key k) rows
              then Some (group_total eqb key val k rows)
              else None
    end.
Proof.
  revert acc. induction rows as [|r rows IH]; intros acc.
  - unfold group_total. simpl. destruct (lookup eqb k acc); [f_equal; lia | reflexivity].
  - simpl fold_left. simpl existsb. rewrite IH, group_total_cons.
    unfold has_key. destruct (key r) as [k'|]; [|reflexivity].
    destruct (eqb k k') eqn:E.
    + apply eqb_eq in E. subst k'.
      rewrite (lookup_upsert_same eqb eqb_eq). simpl.
      destruct (lookup eqb k acc); f_equal; lia.
    + rewrite (lookup_upsert_other eqb eqb_eq)
        by (intros ->; rewrite (eqb_same eqb eqb_eq) in E; discriminate).
      reflexivity.
Qed.

Lemma group_sum_lookup (rows : list Row) (k : K) :
  lookup eqb k (group_sum eqb key val rows)
  = if existsb (has_key eqb key k) rows
    then Some (group_total eqb key val k rows)
    else None.
Proof. unfold group_sum. now rewrite group_fold_lookup. Qed.

Lemma group_sum_keys (rows : list Row) (k : K) :
  In k (map fst (group_sum eqb key val rows))
  <-> exists r, In r rows /\ key r = Some k.
Proof.
  assert (Hex : existsb (has_key eqb key k) rows = true
                <-> exists r, In r rows /\ key r = Some k).
  { rewrite existsb_exists. unfold has_key. split; intros [r [Hr Hk]]; exists r.
    - destruct (key r) as [k'|]; [|discriminate]. apply eqb_eq in Hk. now subst.
    - rewrite Hk. split; [assumption | now apply eqb_eq]. }
  rewrite <- Hex. pose proof (lookup_None eqb eqb_eq k (group_sum eqb key val rows)) as Hn.
  rewrite group_sum_lookup in Hn.
  destruct (existsb (has_key eqb key k) rows) eqn:E.
  - split; [reflexivity|]. intros _.
    apply (lookup_In eqb eqb_eq k (group_total eqb key val k rows)).
    now rewrite group_sum_lookup, E.
  - split; [|discriminate]. intros H. exfalso. apply (proj1 Hn); [reflexivity | exact H].
Qed.

End GroupSum.

Lemma key2_eqb_eq (a b : string * Z) : key2_eqb a b = true <-> a = b.
Proof.
  destruct a as [w h], b as [w' h']. unfold key2_eqb. simpl.
  rewrite andb_true_iff, String.eqb_eq, Z.eqb_eq. split.
  - intros [-> ->]. reflexivity.
  - intros E. injection E as -> ->. tauto.
Qed.

Lemma key2_Some (r : Row) (w : string) (h : Z) :
  key2 r = Some (w, h) <-> weekday r = Some w /\ hour r = Some h.
Proof.
  unfold key2. destruct (weekday r) as [w'|], (hour r) as [h'|]; split;
    try discriminate; try (intros [? ?]; discriminate).
  - intros E. injection E as -> ->. tauto.
  - intros [E1 E2]. injection E1 as ->. injection E2 as ->. reflexivity.
Qed.

Lemma pivot_index_In (f : list Row) (w : string) :
  In w (tbl_index (pivot_table_sum total_amount f)) <-> weekday_in_data f w.
Proof.
  unfold pivot_table_sum, weekday_in_data. simpl.
  rewrite sort_by_In, (dedup_In String.eqb) by apply String.eqb_eq.
  rewrite in_map_iff. split.
  - intros [[[w' h] v] [E Hin]]. simpl in E. subst w'.
    assert (Hk : In (w, h) (map fst (group_sum key2_eqb key2 total_amount f)))
      by (apply in_map_iff; exists (w, h, v); tauto).
    apply (group_sum_keys key2_eqb key2_eqb_eq) in Hk.
    destruct Hk as [r [Hr Hk]]. apply key2_Some in Hk. exists r, h. tauto.
  - intros [r [h [Hr Hk]]]. apply key2_Some in Hk.
    assert (Hin : In (w, h) (map fst (group_sum key2_eqb key2 total_amount f)))
      by (apply (group_sum_keys key2_eqb key2_eqb_eq); eauto).
    apply in_map_iff in Hin. destruct Hin as [p [E Hp]].
    exists p. rewrite E. tauto.
Qed.

Lemma pivot_columns_In (f : list Row) (h : Z) :
  In h (tbl_columns (pivot_table_sum total_amount f)) <-> hour_in_data f h.
Proof.
  unfold pivot_table_sum, hour_in_data. simpl.
  rewrite sort_by_In, (dedup_In Z.eqb) by apply Z.eqb_eq.
  rewrite in_map_iff. split.
  - intros [[[w h'] v] [E Hin]]. simpl in E. subst h'.
    assert (Hk : In (w, h) (map fst (group_sum key2_eqb key2 total_amount f)))
      by (apply in_map_iff; exists (w, h, v); tauto).
    apply (group_sum_keys key2_eqb key2_eqb_eq) in Hk.
    destruct Hk as [r [Hr Hk]]. apply key2_Some in Hk. exists r, w. tauto.
  - intros [r [w [Hr Hk]]]. apply key2_Some in Hk.
    assert (Hin : In (w, h) (map fst (group_sum key2_eqb key2 total_amount f)))
      by (apply (group_sum_keys key2_eqb key2_eqb_eq); eauto).
    apply in_map_iff in Hin. destruct Hin as [p [E Hp]].
    exists p. rewrite E. tauto.
Qed.

(** The shape of the table: the seven weekdays in their order, and one
    column for every hour that occurs with a weekday. *)
Lemma heat_shape (f : list Row) :
  tbl_index (heat f) = wd_order
  /\ List.length (tbl_cells (heat f)) = 7%nat
  /\ (forall h, In h (tbl_columns (heat f)) <-> hour_in_data f h).
Proof.
  split; [reflexivity|]. split; [reflexivity|].
  intros h. apply pivot_columns_In.
Qed.

(** The cells of the table.  In the row of a weekday that occurs in the
    data a cell holds the revenue of its weekday and hour, which is 0 when
    no row has both.  The row of a weekday that does not occur is added by
    [reindex] after [fillna] has run, and all its cells are null. *)
Lemma heat_cell (f : list Row) (w : string) (h : Z) :
  In w wd_order -> hour_in_data f h ->
  (weekday_in_data f w -> cell (heat f) w h = Some (Some (revenue_at w h f)))
  /\ (~ weekday_in_data f w -> cell (heat f) w h = Some None).
Proof.
  intros Hw Hh. apply pivot_columns_In in Hh.
  destruct (position_In w wd_order Hw) as [i Hi].
  pose proof (position_nth_error _ _ _ Hi) as Hnth.
  unfold cell, heat, reindex. cbv zeta.
  cbn [tbl_index tbl_columns tbl_cells]. rewrite Hi.
  rewrite (map_nth_error _ _ _ Hnth).
  cbn [fillna tbl_index tbl_columns tbl_cells].
  set (agged := group_sum key2_eqb key2 total_amount f).
  set (cols := tbl_columns (pivot_table_sum total_amount f)) in *.
  split.
  - intros Hin. apply pivot_index_In in Hin.
    destruct (position_In _ _ Hin) as [j Hj]. rewrite Hj.
    pose proof (position_nth_error _ _ _ Hj) as Hjn.
    unfold pivot_table_sum at 1. cbn [tbl_cells].
    fold agged. fold cols.
    rewrite map_map.
    rewrite (nth_error_nth _ _ _
               (map_nth_error
                  (fun x => map (fun c => match c with Some v => Some v | None => Some 0 end)
                                (map (fun h0 => lookup key2_eqb (x, h0) agged) cols))
                  _ _ Hjn)).
    rewrite map_map, (find_col_map h cols) by assumption.
    unfold agged. rewrite (group_sum_lookup key2_eqb key2_eqb_eq).
    unfold revenue_at.
    destruct (existsb (has_key key2_eqb key2 (w, h)) f) eqn:E; [reflexivity|].
    now rewrite (group_total_none key2_eqb key2 total_amount (w, h) f E).
  - intros Hout. rewrite <- pivot_index_In in Hout.
    rewrite (position_absent _ _ Hout). now apply find_col_blank.
Qed.

Lemma revenue_at_no_row (f : list Row) (w : string) (h : Z) :
  no_row_at f w h -> revenue_at w h f = 0.
Proof.
  intros Hno. apply group_total_none.
  destruct (existsb (has_key key2_eqb key2 (w, h)) f) eqn:E; [|reflexivity].
  apply existsb_exists in E. destruct E as [r [Hr Hk]]. exfalso.
  unfold has_key in Hk. destruct (key2 r) as [[w' h']|] eqn:Ek; [|discriminate].
  apply key2_eqb_eq in Hk. injection Hk as <- <-.
  apply key2_Some in Ek. exact (Hno r Hr Ek).
Qed.

(** C1 at one order, placed on a Monday at 10: the table has the seven
    weekday rows in order and the Monday cell holds the amount, but the
    rows of the six weekdays without data hold null and not 0, since
    [fillna(0)] runs before [reindex] adds them. *)
Theorem heat_absent_weekday_is_null :
  heat [Sample.monday_order]
  = {| tbl_index := wd_order;
       tbl_columns := [10];
       tbl_cells := [[Some 100]; [None]; [None]; [None]; [None]; [None]; [None]] |}
  /\ no_row_at [Sample.monday_order] "Tuesday" 10
  /\ cell (heat [Sample.monday_order]) "Tuesday" 10 = Some None
  /\ ~ absent_cells_zero [Sample.monday_order].
Proof.
  assert (Hno : no_row_at [Sample.monday_order] "Tuesday" 10).
  { intros r [<-|[]] [Hw _]. discriminate. }
  split; [reflexivity|]. split; [exact Hno|]. split; [reflexivity|].
  intros H. specialize (H "Tuesday" 10 None eq_refl Hno). discriminate.
Qed.

(* ================================================================== *)
(** * Further properties of the loader and of the start of the script *)

Lemma mapM_length {A B} (f : A -> result B) (l : list A) (l' : list B) :
  mapM f l = Ok l' -> List.length l' = List.length l.
Proof.
  revert l'. induction l as [|x l IH]; simpl; intros l' H.
  - injection H as <-. reflexivity.
  - destruct (f x) as [y|e]; simpl in H; [|discriminate].
    destruct (mapM f l) as [ys|e]; simpl in H; [|discriminate].
    injection H as <-. simpl. f_equal. now apply IH.
Qed.

(** X1. With an empty connection string the script shows the error banner
    of the configuration error, whose text says that MONGO_URI is not set,
    and stops, whatever the database would answer; nothing has reached
    the network. *)
Theorem missing_uri_stops_before_network (env : Env) (uri db coll : string)
  (log : list net_event) :
  uri = "" ->
  startup env uri db coll log
  = ([Title page_title;
      ErrorBox (RuntimeError "MONGO_URI is not set. Add it to Streamlit Secrets.")],
     Stopped, log).
Proof. intros ->. reflexivity. Qed.

Lemma missing_uri_stops_before_network_witness :
  startup (Sample.env_with (Ok [Sample.full_doc])) "" "retail" "orders" []
  = ([Title page_title;
      ErrorBox (RuntimeError "MONGO_URI is not set. Add it to Streamlit Secrets.")],
     Stopped, []).
Proof.
  apply (missing_uri_stops_before_network (Sample.env_with (Ok [Sample.full_doc]))
           "" "retail" "orders" []).
  reflexivity.
Defined.


(** X4. A document whose store or customer field is present but is not a
    sub-record, an explicit null for one, cannot be flattened: reading a
    component of it raises the attribute error. *)
Theorem flatten_raises_on_bad_sub_record (env : Env) (d : dict) :
  (is_doc (dict_get d "store" (VDoc []))
   && is_doc (dict_get d "customer" (VDoc [])))%bool = false ->
  flatten env d = Raise AttributeError.
Proof.
  unfold flatten. intros H.
  destruct (dict_get d "store" (VDoc [])); cbn [attr_get bind]; try reflexivity;
    destruct (dict_get d "customer" (VDoc [])); cbn [attr_get bind];
    try reflexivity; discriminate.
Qed.

Lemma flatten_raises_on_bad_sub_record_witness :
  flatten (Sample.env_with (Ok [])) Sample.null_store_doc = Raise AttributeError
  /\ flatten (Sample.env_with (Ok [])) Sample.bad_customer_doc = Raise AttributeError.
Proof.
  split.
  - apply (flatten_raises_on_bad_sub_record (Sample.env_with (Ok []))
             Sample.null_store_doc). reflexivity.
  - apply (flatten_raises_on_bad_sub_record (Sample.env_with (Ok []))
             Sample.bad_customer_doc). reflexivity.
Defined.

Lemma mapM_first_raise {A B} (f : A -> result B) (l : list A) (x : A) :
  In x l -> (exists e, f x = Raise e) ->
  exists pre y post ys e,
    l = pre ++ y :: post
    /\ mapM f pre = Ok ys
    /\ f y = Raise e
    /\ mapM f l = Raise e.
Proof.
  induction l as [|z l IH]; simpl; [tauto|]. intros Hin Hx.
  destruct (f z) as [b|e] eqn:Ez.
  - assert (Hl : In x l).
    { destruct Hin as [->|Hin]; [|assumption]. destruct Hx as [e He]. congruence. }
    destruct (IH Hl Hx) as [pre [y [post [ys [e [-> [Hpre [Hy Hall]]]]]]]].
    exists (z :: pre), y, post, (b :: ys), e.
    split; [reflexivity|]. simpl. rewrite Ez. simpl. rewrite Hpre. simpl.
    split; [reflexivity|]. split; [assumption|]. now rewrite Hall.
  - exists [], z, l, [], e. simpl. rewrite Ez. tauto.
Qed.

(** X5. The load is all or nothing: when one of the returned documents
    cannot be flattened, wherever it stands among the others, the loader
    raises the exception of the first document that cannot be flattened,
    no frame is built from the documents before it or after it, and the
    script shows the error banner of that exception and stops. *)
Theorem one_bad_document_fails_the_load (env : Env) (uri db coll : string)
  (log : list net_event) (docs : list dict) (d : dict) (e : exn) :
  falsy uri = false ->
  driver_accepts env uri = true ->
  server env db coll = Ok docs ->
  In d docs ->
  flatten env d = Raise e ->
  exists pre bad post rows e',
    docs = pre ++ bad :: post
    /\ mapM (flatten env) pre = Ok rows
    /\ flatten env bad = Raise e'
    /\ mapM (flatten env) docs = Raise e'
    /\ startup env uri db coll log
       = ([Title page_title; ErrorBox e'],
          Stopped,
          log ++ [Connect uri true; Aggregate db coll]).
Proof.
  intros Hu Hacc Hs Hin He.
  destruct (mapM_first_raise (flatten env) docs d Hin (ex_intro _ e He))
    as [pre [bad [post [rows [e' [Hd [Hpre [Hbad Hall]]]]]]]].
  exists pre, bad, post, rows, e'. repeat split; try assumption.
  unfold startup, net_bind. rewrite get_collection_ok by assumption.
  unfold load_orders, net_bind, aggregate. cbn [coll_db db_name coll_name].
  rewrite Hs. destruct docs as [|d0 docs]; [contradiction|].
  unfold net_lift. rewrite Hall. now rewrite <- app_assoc.
Qed.

Lemma one_bad_document_fails_the_load_witness :
  exists pre bad post rows e',
    [Sample.full_doc; Sample.null_store_doc; Sample.null_items_doc]
    = pre ++ bad :: post
    /\ mapM (flatten (Sample.env_with (Ok [Sample.full_doc; Sample.null_store_doc;
                                           Sample.null_items_doc]))) pre = Ok rows
    /\ flatten (Sample.env_with (Ok [Sample.full_doc; Sample.null_store_doc;
                                     Sample.null_items_doc])) bad = Raise e'
    /\ mapM (flatten (Sample.env_with (Ok [Sample.full_doc; Sample.null_store_doc;
                                           Sample.null_items_doc])))
         [Sample.full_doc; Sample.null_store_doc; Sample.null_items_doc] = Raise e'
    /\ startup (Sample.env_with (Ok [Sample.full_doc; Sample.null_store_doc;
                                     Sample.null_items_doc]))
         Sample.uri "retail" "orders" []
       = ([Title page_title; ErrorBox e'],
          Stopped,
          [] ++ [Connect Sample.uri true; Aggregate "retail" "orders"]).
Proof.
  apply (one_bad_document_fails_the_load
           (Sample.env_with (Ok [Sample.full_doc; Sample.null_store_doc;
                                 Sample.null_items_doc]))
           Sample.uri "retail" "orders" []
           [Sample.full_doc; Sample.null_store_doc; Sample.null_items_doc]
           Sample.null_items_doc TypeError);
    try reflexivity.
  simpl. tauto.
Defined.

Lemma dict_get_restrict (keys : list string) (d : dict) (k : string)
  (default : value) :
  In k keys -> dict_get (restrict keys d) k default = dict_get d k default.
Proof.
  intros Hk. induction d as [|[k' v] d IH]; simpl; [reflexivity|].
  destruct (existsb (String.eqb k') keys) eqn:E; simpl.
  - now rewrite IH.
  - destruct (String.eqb k k') eqn:Ek; [|exact IH].
    apply String.eqb_eq in Ek. subst k'.
    apply existsb_eqb_In in Hk. congruence.
Qed.

Lemma dict_get_relabel (g : string -> value -> value) (d : dict) (k : string)
  (default : value) :
  dict_get (map (fun p => (fst p, g (fst p) (snd p))) d) k default
  = if dict_has d k then g k (dict_get d k default) else default.
Proof.
  induction d as [|[k' v] d IH]; simpl; [reflexivity|].
  destruct (String.eqb k k') eqn:E; simpl; [|exact IH].
  apply String.eqb_eq in E. now subst.
Qed.

Lemma attr_get_restrict_sub (keys : list string) (v : value) (k : string)
  (default : value) :
  In k keys -> attr_get (restrict_sub keys v) k default = attr_get v k default.
Proof.
  intros Hk. destruct v; simpl; try reflexivity.
  now rewrite dict_get_restrict.
Qed.

Lemma dict_get_keep_projected (d : dict) (k : string) (default : value) :
  In k projected_fields -> k <> "store" -> k <> "customer" ->
  dict_get (keep_projected d) k default = dict_get d k default.
Proof.
  intros Hk Hs Hc. unfold keep_projected.
  rewrite (dict_get_relabel
             (fun k v => if String.eqb k "store" then restrict_sub store_fields v
                         else if String.eqb k "customer"
                              then restrict_sub customer_fields v else v)).
  apply String.eqb_neq in Hs, Hc. rewrite Hs, Hc.
  rewrite dict_get_restrict by assumption.
  destruct (dict_has (restrict projected_fields d) k) eqn:E; [reflexivity|].
  rewrite <- (dict_get_restrict projected_fields d k default Hk).
  symmetry. now apply dict_get_absent.
Qed.

Lemma attr_get_keep_projected (d : dict) (k : string) (keys : list string)
  (field : string) :
  (k = "store" /\ keys = store_fields \/ k = "customer" /\ keys = customer_fields) ->
  In field keys ->
  attr_get (dict_get (keep_projected d) k (VDoc [])) field VNull
  = attr_get (dict_get d k (VDoc [])) field VNull.
Proof.
  intros Hk Hf. unfold keep_projected.
  rewrite (dict_get_relabel
             (fun k v => if String.eqb k "store" then restrict_sub store_fields v
                         else if String.eqb k "customer"
                              then restrict_sub customer_fields v else v)).
  assert (Hin : In k projected_fields)
    by (destruct Hk as [[-> _]|[-> _]]; simpl; tauto).
  rewrite dict_get_restrict by assumption.
  destruct (dict_has (restrict projected_fields d) k) eqn:E.
  - destruct Hk as [[-> ->]|[-> ->]]; simpl String.eqb; cbv iota;
      now apply attr_get_restrict_sub.
  - rewrite <- (dict_get_restrict projected_fields d k (VDoc []) Hin).
    now rewrite (dict_get_absent _ _ _ E).
Qed.

(** X6. The loader reads nothing outside the projection of its query: a
    document stripped of every field that the projection does not name,
    at the top and inside the store and customer sub-records, flattens to
    the same row, or raises the same error, as the document itself. *)
Theorem flatten_reads_projected_fields (env : Env) (d : dict) :
  flatten env (keep_projected d) = flatten env d.
Proof.
  unfold flatten.
  rewrite !(attr_get_keep_projected d "store" store_fields)
    by (simpl; tauto).
  rewrite !(attr_get_keep_projected d "customer" customer_fields)
    by (simpl; tauto).
  rewrite !dict_get_keep_projected by (simpl; try tauto; discriminate).
  reflexivity.
Qed.

(** X7. The number of items of a row is the sum of the quantities of the
    items of its document; an item without a quantity adds 0, and a
    document without items has 0 items. *)
Theorem num_items_is_sum_of_quantities (env : Env) (d : dict) :
  doc_ok d = true ->
  exists r,
    flatten env d = Ok r
    /\ num_items r = total (map quantity_of (items_of d))
    /\ (forall kv, dict_has kv "quantity" = false -> quantity_of (VDoc kv) = 0)
    /\ (dict_has d "items" = false -> num_items r = 0).
Proof.
  intros Hok. exists (flat_row env d).
  split; [now apply flatten_ok|]. split; [reflexivity|]. split.
  - intros kv H. simpl. now rewrite (dict_get_absent _ _ _ H).
  - intros H. simpl. unfold items_of. now rewrite (dict_get_absent _ _ _ H).
Qed.

Lemma num_items_is_sum_of_quantities_witness :
  exists r,
    flatten (Sample.env_with (Ok [])) Sample.verbose_doc = Ok r
    /\ num_items r = total (map quantity_of (items_of Sample.verbose_doc))
    /\ (forall kv, dict_has kv "quantity" = false -> quantity_of (VDoc kv) = 0)
    /\ (dict_has Sample.verbose_doc "items" = false -> num_items r = 0).
Proof.
  apply (num_items_is_sum_of_quantities (Sample.env_with (Ok [])) Sample.verbose_doc).
  reflexivity.
Defined.

Lemma strictly_sorted_unique (l1 l2 : list string) :
  StronglySorted str_lt l1 -> StronglySorted str_lt l2 ->
  (forall x, In x l1 <-> In x l2) -> l1 = l2.
Proof.
  revert l2. induction l1 as [|x l1 IH]; intros l2 H1 H2 Hin.
  - destruct l2 as [|y l2]; [reflexivity|].
    exfalso. apply (proj2 (Hin y)). now left.
  - destruct l2 as [|y l2].
    { exfalso. apply (proj1 (Hin x)). now left. }
    apply StronglySorted_inv in H1. destruct H1 as [H1 Hx].
    apply StronglySorted_inv in H2. destruct H2 as [H2 Hy].
    rewrite Forall_forall in Hx, Hy.
    assert (E : x = y).
    { destruct (proj1 (Hin x) (or_introl eq_refl)) as [E|Hxl2]; [now symmetry|].
      destruct (proj2 (Hin y) (or_introl eq_refl)) as [E|Hyl1]; [assumption|].
      exfalso. apply (str_lt_irrefl x).
      apply (str_lt_trans x y x); auto. }
    subst y. f_equal. apply IH; try assumption.
    intros z. split; intros Hz.
    + destruct (proj1 (Hin z) (or_intror Hz)) as [E|H]; [|assumption].
      subst z. exfalso. exact (str_lt_irrefl x (Hx x Hz)).
    + destruct (proj2 (Hin z) (or_intror Hz)) as [E|H]; [|assumption].
      subst z. exfalso. exact (str_lt_irrefl x (Hy x Hz)).
Qed.

(** X8. The categories of an order depend only on which labels its items
    carry: two lists of items with the same labels, in any order and any
    number of times, give the same categories. *)
Theorem categories_ignore_order_and_repeats (its1 its2 : list value) :
  forallb item_ok its1 = true ->
  forallb item_ok its2 = true ->
  (forall s, In s (map category_label its1) <-> In s (map category_label its2)) ->
  categories_of its1 = categories_of its2.
Proof.
  intros H1 H2 Hsame. rewrite !categories_of_ok by assumption.
  do 2 f_equal. apply strictly_sorted_unique.
  - apply sorted_strongly, py_set_NoDup.
  - apply sorted_strongly, py_set_NoDup.
  - intros s. rewrite !sorted_In, !py_set_In. apply Hsame.
Qed.

Lemma categories_ignore_order_and_repeats_witness :
  categories_of [Sample.item 1 "Shoes"; Sample.item 2 "Shoes"; Sample.item 1 "Hats"]
  = categories_of [Sample.item 5 "Hats"; Sample.item 1 "Shoes"].
Proof.
  apply (categories_ignore_order_and_repeats
           [Sample.item 1 "Shoes"; Sample.item 2 "Shoes"; Sample.item 1 "Hats"]
           [Sample.item 5 "Hats"; Sample.item 1 "Shoes"]);
    try reflexivity.
  intros s. simpl. tauto.
Defined.

Lemma to_datetime_coerce_is_datetime (env : Env) (column : list value) (v : value) :
  is_datetime (to_datetime_coerce env column v) = true.
Proof.
  destruct v; cbn [to_datetime_coerce]; try reflexivity.
  - destruct (in_timestamp_range n); reflexivity.
  - destruct (parse_datetime env column s); reflexivity.
  - destruct (in_timestamp_range t); reflexivity.
Qed.

(** X9. Whatever the documents hold as purchase timestamp, in the frame
    that the loader returns every cell of that column is a datetime or
    NaT: a value that cannot be converted has become NaT and has not made
    the load fail.  The frame is empty exactly when the query returned no
    document. *)
Theorem loaded_timestamps_are_datetimes (env : Env) (c : Collection)
  (log log' : list net_event) (df : DataFrame) :
  load_orders env c log = (Ok df, log') ->
  forallb (fun r => is_datetime (Loader.purchase_ts r)) (df_rows df) = true
  /\ (df_empty df = true
      <-> server env (db_name (coll_db c)) (coll_name c) = Ok [])
  /\ (df_empty df = false -> df_columns df = flat_columns).
Proof.
  unfold load_orders, net_bind, aggregate.
  destruct (server env (db_name (coll_db c)) (coll_name c)) as [[|d docs]|e];
    [| |discriminate].
  - unfold net_ret. intros H. injection H as <- _.
    split; [reflexivity|]. split; [tauto | discriminate].
  - unfold net_lift, net_ret.
    destruct (mapM (flatten env) (d :: docs)) as [rows|e] eqn:Hm; [|discriminate].
    intros H. injection H as <- _.
    pose proof (mapM_length _ _ _ Hm) as Hlen.
    destruct rows as [|r rows]; [discriminate|].
    split; [|split; [split; discriminate | reflexivity]].
    cbn [coerce_purchase_ts frame_of_rows df_rows].
    apply forallb_forall. intros r' Hr'. apply in_map_iff in Hr'.
    destruct Hr' as [r0 [<- _]]. apply to_datetime_coerce_is_datetime.
Qed.

Lemma loaded_timestamps_are_datetimes_witness :
  forallb (fun r => is_datetime (Loader.purchase_ts r))
    (df_rows (coerce_purchase_ts (Sample.env_with (Ok [Sample.full_doc; Sample.bare_doc]))
                (frame_of_rows
                   (map (flat_row (Sample.env_with (Ok [Sample.full_doc; Sample.bare_doc])))
                        [Sample.full_doc; Sample.bare_doc])))) = true.
Proof.
  apply (loaded_timestamps_are_datetimes
           (Sample.env_with (Ok [Sample.full_doc; Sample.bare_doc]))
           Sample.collection [] ([] ++ [Aggregate "retail" "orders"])).
  reflexivity.
Defined.

(* ================================================================== *)
(** * Further properties of the sidebar, the filter and the page *)

(** ** Sorting *)

Lemma insert_by_perm {A} (before : A -> A -> bool) (x : A) (l : list A) :
  Permutation (insert_by before x l) (x :: l).
Proof.
  induction l as [|y l IH]; simpl; [apply Permutation_refl|].
  destruct (before y x); [|apply Permutation_refl].
  apply perm_trans with (y :: x :: l); [now apply perm_skip | apply perm_swap].
Qed.

Lemma sort_by_perm {A} (before : A -> A -> bool) (l : list A) :
  Permutation (sort_by before l) l.
Proof.
  unfold sort_by. induction l as [|x l IH]; simpl; [apply Permutation_refl|].
  apply perm_trans with (x :: fold_right (insert_by before) [] l);
    [apply insert_by_perm | now apply perm_skip].
Qed.

Section SortBy.
Context {A : Type} (before : A -> A -> bool) (R : A -> A -> Prop).
Hypothesis before_R : forall y x, before y x = true -> R y x.
Hypothesis not_before_R : forall y x, before y x = false -> R x y.
Hypothesis R_trans : forall a b c, R a b -> R b c -> R a c.

Lemma insert_by_sorted (x : A) (l : list A) :
  StronglySorted R l -> StronglySorted R (insert_by before x l).
Proof.
  induction l as [|y l IH]; simpl; intros Hs.
  - constructor; constructor.
  - apply StronglySorted_inv in Hs. destruct Hs as [Hs Hy].
    destruct (before y x) eqn:E.
    + constructor; [now apply IH|].
      apply Forall_forall. intros z Hz. apply insert_by_In in Hz.
      destruct Hz as [->|Hz]; [now apply before_R|].
      rewrite Forall_forall in Hy. now apply Hy.
    + pose proof (not_before_R _ _ E) as Hxy.
      constructor; [now constructor|].
      constructor; [assumption|].
      apply Forall_forall. intros z Hz. rewrite Forall_forall in Hy.
      apply (R_trans x y z); auto.
Qed.

Lemma sort_by_sorted (l : list A) : StronglySorted R (sort_by before l).
Proof.
  unfold sort_by. induction l as [|x l IH]; simpl; [constructor|].
  now apply insert_by_sorted.
Qed.

End SortBy.

Lemma strongly_sorted_app {A} (R : A -> A -> Prop) (l1 l2 : list A) :
  StronglySorted R (l1 ++ l2) ->
  StronglySorted R l1
  /\ StronglySorted R l2
  /\ forall a b, In a l1 -> In b l2 -> R a b.
Proof.
  induction l1 as [|x l1 IH]; simpl; intros H.
  - split; [constructor|]. split; [assumption|]. intros a b [].
  - apply StronglySorted_inv in H. destruct H as [H Hx].
    destruct (IH H) as [H1 [H2 H12]]. rewrite Forall_forall in Hx.
    split.
    + constructor; [assumption|]. apply Forall_forall. intros z Hz.
      apply Hx. apply in_or_app. now left.
    + split; [assumption|]. intros a b [<-|Ha] Hb.
      * apply Hx. apply in_or_app. now right.
      * now apply H12.
Qed.

(** ** What the multiselects offer *)

Section Unique.
Context {A : Type} (eqb : A -> A -> bool).
Hypothesis eqb_eq : forall x y, eqb x y = true <-> x = y.

Lemma existsb_In (x : A) (l : list A) : existsb (eqb x) l = true <-> In x l.
Proof.
  rewrite existsb_exists. split.
  - intros [y [Hy E]]. apply eqb_eq in E. now subst.
  - intros H. exists x. split; [assumption | now apply eqb_eq].
Qed.

Lemma unique_from_In (seen l : list A) (x : A) :
  In x (unique_from eqb seen l) <-> In x l /\ ~ In x seen.
Proof.
  revert seen. induction l as [|y l IH]; intros seen; simpl; [tauto|].
  destruct (existsb (eqb y) seen) eqn:E.
  - apply existsb_In in E. rewrite IH. split; [tauto|].
    intros [[->|H] Hn]; tauto.
  - assert (Hy : ~ In y seen).
    { intros H. apply existsb_In in H. congruence. }
    simpl. rewrite IH. simpl. split.
    + intros [->|[H Hn]]; tauto.
    + intros [[->|H] Hn]; [now left|].
      destruct (eqb y x) eqn:Eyx.
      * apply eqb_eq in Eyx. now left.
      * right. split; [assumption|]. intros [->|H']; [|contradiction].
        assert (eqb x x = true) by now apply eqb_eq. congruence.
Qed.

Lemma unique_from_NoDup (seen l : list A) : NoDup (unique_from eqb seen l).
Proof.
  revert seen. induction l as [|y l IH]; intros seen; simpl; [constructor|].
  destruct (existsb (eqb y) seen); [apply IH|].
  constructor; [|apply IH].
  rewrite unique_from_In. simpl. tauto.
Qed.

Lemma unique_In (l : list A) (x : A) : In x (unique eqb l) <-> In x l.
Proof. unfold unique. rewrite unique_from_In. simpl. tauto. Qed.

End Unique.

Lemma dropna_In {A} (x : A) (s : Series (option A)) :
  In x (dropna s) <-> In (Some x) s.
Proof.
  unfold dropna. rewrite in_flat_map. split.
  - intros [[y|] [Hy Hx]]; simpl in Hx; [|tauto].
    destruct Hx as [->|[]]. assumption.
  - intros H. exists (Some x). split; [assumption | now left].
Qed.

Lemma options_In (field : Row -> option string) (df : list Row) (s : string) :
  In s (options field df) <-> exists r, In r df /\ field r = Some s.
Proof.
  unfold options, col.
  rewrite sorted_In, (unique_In String.eqb String.eqb_eq), dropna_In, in_map_iff.
  split; intros [r [H1 H2]]; exists r; tauto.
Qed.

(** X10. A multiselect of the sidebar offers exactly the values that occur
    in its column, each once, in increasing order; it never offers a
    null. *)
Theorem options_are_the_values_in_order (field : Row -> option string)
  (df : list Row) :
  StronglySorted str_lt (options field df)
  /\ NoDup (options field df)
  /\ (forall s, In s (options field df) <-> exists r, In r df /\ field r = Some s)
  /\ (options field df = [] <-> forall r, In r df -> field r = None).
Proof.
  assert (Hs : StronglySorted str_lt (options field df)).
  { unfold options. apply sorted_strongly.
    apply (unique_from_NoDup String.eqb String.eqb_eq). }
  split; [assumption|]. split; [now apply strongly_sorted_NoDup|].
  split; [apply options_In|]. split.
  - intros E r Hr. destruct (field r) as [s|] eqn:Es; [|reflexivity].
    exfalso. assert (Hin : In s (options field df)) by (apply options_In; eauto).
    rewrite E in Hin. exact Hin.
  - intros Hnone. destruct (options field df) as [|s l] eqn:E; [reflexivity|].
    exfalso. assert (Hin : In s (options field df)) by (rewrite E; now left).
    apply options_In in Hin. destruct Hin as [r [Hr Hs']].
    rewrite (Hnone r Hr) in Hs'. discriminate.
Qed.

(** ** The filter the page starts with *)

Lemma dropna_col_stamps (df : list Row) : dropna (col purchase_ts df) = stamps df.
Proof.
  unfold dropna, col, stamps. induction df as [|r df IH]; simpl; [reflexivity|].
  now rewrite IH.
Qed.

Lemma filter_all {A} (p : A -> bool) (l : list A) :
  (forall x, In x l -> p x = true) -> filter p l = l.
Proof.
  induction l as [|x l IH]; simpl; intros H; [reflexivity|].
  rewrite (H x (or_introl eq_refl)). f_equal. apply IH. intros y Hy. apply H. now right.
Qed.

Lemma filter_twice {A} (p q : A -> bool) (l : list A) :
  filter q (filter p l) = filter (fun x => (p x && q x)%bool) l.
Proof.
  induction l as [|x l IH]; simpl; [reflexivity|].
  destruct (p x); simpl; [destruct (q x)|]; now rewrite IH.
Qed.

Lemma midnight_le (t : Z) : to_datetime_date (day_of t) <= t.
Proof.
  unfold to_datetime_date, day_of. pose proof NS_PER_DAY_pos.
  rewrite Z.mul_comm. now apply Z.mul_div_le.
Qed.

Lemma next_midnight_gt (t : Z) : t < to_datetime_date (day_of t + 1).
Proof.
  unfold to_datetime_date, day_of. pose proof NS_PER_DAY_pos.
  rewrite Z.mul_comm. now apply Z.mul_succ_div_gt.
Qed.

Lemma midnight_mono (d d' : Z) : d <= d' -> to_datetime_date d <= to_datetime_date d'.
Proof. unfold to_datetime_date. pose proof NS_PER_DAY_pos. nia. Qed.

(** X11. With the date range that the page proposes, from the day of the
    earliest order to the day of the latest, and nothing selected, the
    filter keeps every order that has a timestamp, in the order of the
    dataset, and leaves out exactly the orders without one. *)
Theorem default_range_keeps_dated_rows (df : list Row) (d0 d1 : Z) :
  date_min df = Some d0 ->
  date_max df = Some d1 ->
  filtered (no_selection d0 d1) df = filter has_ts df
  /\ d0 <= d1
  /\ filtered (no_selection d0 d1) df <> [].
Proof.
  unfold date_min, date_max, series_min, series_max.
  rewrite dropna_col_stamps. destruct (stamps df) as [|t ts] eqn:Hst; [discriminate|].
  simpl. intros E0 E1. injection E0 as <-. injection E1 as <-.
  destruct (fold_min_spec ts t) as [Hmin_in Hmin].
  destruct (fold_max_spec ts t) as [Hmax_in Hmax].
  set (lo := fold_left Z.min ts t) in *. set (hi := fold_left Z.max ts t) in *.
  assert (Hspan : day_of lo <= day_of hi).
  { unfold day_of. apply Z.div_le_mono; [apply NS_PER_DAY_pos|]. now apply Hmin. }
  assert (E : filtered (no_selection (day_of lo) (day_of hi)) df = filter has_ts df).
  { rewrite filtered_filter. apply filter_ext_in. intros r Hr.
    unfold passesb, in_date_rangeb, has_ts. simpl.
    destruct (purchase_ts r) as [x|] eqn:Ex; [|reflexivity].
    assert (Hx : In x (t :: ts)) by (rewrite <- Hst; apply stamps_In; eauto).
    pose proof (Hmin x Hx). pose proof (Hmax x Hx).
    pose proof (midnight_le lo). pose proof (next_midnight_gt hi).
    replace (to_datetime_date (day_of lo) <=? x) with true
      by (symmetry; apply Z.leb_le; lia).
    replace (x <? to_datetime_date (day_of hi + 1)) with true
      by (symmetry; apply Z.ltb_lt; lia).
    reflexivity. }
  split; [exact E|]. split; [exact Hspan|].
  rewrite E. rewrite <- Hst in Hmin_in. apply stamps_In in Hmin_in.
  destruct Hmin_in as [r [Hr Hts]].
  intros Hnil.
  assert (Hin : In r (filter has_ts df))
    by (apply filter_In; split; [assumption | unfold has_ts; now rewrite Hts]).
  rewrite Hnil in Hin. exact Hin.
Qed.

Lemma default_range_keeps_dated_rows_witness :
  filtered (no_selection (Sample.jan 1) (Sample.jan 3)) Sample.week
  = filter has_ts Sample.week
  /\ Sample.jan 1 <= Sample.jan 3
  /\ filtered (no_selection (Sample.jan 1) (Sample.jan 3)) Sample.week <> [].
Proof.
  apply (default_range_keeps_dated_rows Sample.week (Sample.jan 1) (Sample.jan 3));
    reflexivity.
Defined.

(** X12. Selecting every region that the sidebar offers is not the same as
    selecting none: it leaves out the orders without region and keeps the
    others that the rest of the filter keeps. *)
Theorem selecting_every_region_drops_null_regions (fs : Filters) (df : list Row) :
  region_options df <> [] ->
  filtered (with_region fs (region_options df)) df
  = filter has_region (filtered (with_region fs []) df).
Proof.
  intros Hne. rewrite !filtered_filter, filter_twice.
  apply filter_ext_in. intros r Hr.
  unfold passesb, has_region. cbn [with_region date_start date_end sel_region
                                   sel_channel sel_loyalty sel_age].
  assert (Hreg : allowedb String.eqb (region_options df) (region r)
                 = match region r with Some _ => true | None => false end).
  { unfold allowedb. destruct (region_options df) as [|o os] eqn:E; [contradiction|].
    destruct (region r) as [x|] eqn:Ex; [|reflexivity].
    rewrite <- E. apply existsb_eqb_In. apply options_In. eauto. }
  rewrite Hreg. cbn [allowedb].
  destruct (in_date_rangeb (date_start fs) (date_end fs) r),
    (region r),
    (allowedb String.eqb (sel_channel fs) (channel r)),
    (allowedb Bool.eqb (sel_loyalty fs) (loyalty_member r)),
    (allowedb String.eqb (sel_age fs) (age_band r)); reflexivity.
Qed.

Lemma selecting_every_region_drops_null_regions_witness :
  filtered (with_region (no_selection (Sample.jan 1) (Sample.jan 3))
              (region_options Sample.week)) Sample.week
  = filter has_region
      (filtered (with_region (no_selection (Sample.jan 1) (Sample.jan 3)) [])
         Sample.week).
Proof.
  apply (selecting_every_region_drops_null_regions
           (no_selection (Sample.jan 1) (Sample.jan 3)) Sample.week).
  vm_compute. discriminate.
Defined.

(** ** Grouped bars *)

Section Bars.
Context {K : Type} (eqb : K -> K -> bool).
Hypothesis eqb_eq : forall x y, eqb x y = true <-> x = y.
Context {V : Type} (v0 : V) (step : Row -> V -> V) (key : Row -> option K).

Lemma group_fold_NoDup (rows : list Row) (acc : list (K * V)) :
  NoDup (map fst acc) -> NoDup (map fst (group_fold eqb v0 step key rows acc)).
Proof.
  unfold group_fold. revert acc. induction rows as [|r rows IH]; intros acc Hnd;
    simpl; [assumption|].
  apply IH. destruct (key r) as [k|]; [|assumption].
  destruct (lookup eqb k acc) as [v|] eqn:E.
  - rewrite (upsert_keys_present eqb eqb_eq); [assumption|].
    now apply (lookup_In eqb eqb_eq k v).
  - apply (lookup_None eqb eqb_eq) in E.
    rewrite (upsert_keys_new eqb eqb_eq) by assumption.
    apply NoDup_app; [assumption | repeat constructor; simpl; tauto |].
    intros x Hx [<-|[]]. contradiction.
Qed.

Lemma lookup_of_In (k : K) (v : V) (l : list (K * V)) :
  NoDup (map fst l) -> In (k, v) l -> lookup eqb k l = Some v.
Proof.
  induction l as [|[k' v'] l IH]; simpl; [tauto|]. intros Hnd Hin.
  apply NoDup_cons_iff in Hnd. destruct Hnd as [Hk Hnd].
  destruct Hin as [E|Hin].
  - injection E as -> ->. now rewrite (eqb_same eqb eqb_eq).
  - rewrite (eqb_other eqb eqb_eq); [now apply IH|].
    intros ->. apply Hk. apply in_map_iff. exists (k', v). tauto.
Qed.

Lemma In_of_lookup (k : K) (v : V) (l : list (K * V)) :
  lookup eqb k l = Some v -> In (k, v) l.
Proof.
  induction l as [|[k' v'] l IH]; simpl; [discriminate|].
  destruct (eqb k k') eqn:E; [|tauto].
  apply eqb_eq in E. subst. intros H. injection H as ->. now left.
Qed.

End Bars.

Section GroupedSums.
Context {K : Type} (eqb : K -> K -> bool).
Hypothesis eqb_eq : forall x y, eqb x y = true <-> x = y.
Context (key : Row -> option K) (val : Row -> option Z).

Lemma has_key_exists (k : K) (rows : list Row) :
  existsb (has_key eqb key k) rows = true <-> exists r, In r rows /\ key r = Some k.
Proof.
  rewrite existsb_exists. unfold has_key. split; intros [r [Hr Hk]]; exists r.
  - destruct (key r) as [k'|]; [|discriminate]. apply eqb_eq in Hk. now subst.
  - rewrite Hk. split; [assumption | now apply eqb_eq].
Qed.

Lemma group_sum_NoDup (rows : list Row) :
  NoDup (map fst (group_sum eqb key val rows)).
Proof.
  apply (group_fold_NoDup eqb eqb_eq 0 (fun r s => s + addend (val r)) key rows []).
  constructor.
Qed.

Lemma group_sum_In (rows : list Row) (k : K) (v : Z) :
  In (k, v) (group_sum eqb key val rows)
  <-> (exists r, In r rows /\ key r = Some k)
      /\ v = group_total eqb key val k rows.
Proof.
  rewrite <- has_key_exists. split.
  - intros H. apply (lookup_of_In eqb eqb_eq) in H; [|apply group_sum_NoDup].
    rewrite (group_sum_lookup eqb eqb_eq) in H.
    destruct (existsb (has_key eqb key k) rows); [|discriminate].
    injection H as <-. tauto.
  - intros [Hex ->]. apply (In_of_lookup eqb eqb_eq).
    now rewrite (group_sum_lookup eqb eqb_eq), Hex.
Qed.






End GroupedSums.

(** X14. The revenue charts by region and by channel have one bar for
    every value that occurs in the column, and none for the orders
    without a value; the bar of a value is the sum of the amounts of its
    orders; and the bars come in decreasing order of their sums. *)
Theorem revenue_bars (f : list Row) :
  (NoDup (map fst (by_region f))
   /\ (forall k v, In (k, v) (by_region f)
                   <-> (exists r, In r f /\ region r = Some k)
                       /\ v = group_total String.eqb region total_amount k f)
   /\ StronglySorted (fun a b => snd b <= snd a) (by_region f))
  /\ (NoDup (map fst (by_channel f))
      /\ (forall k v, In (k, v) (by_channel f)
                      <-> (exists r, In r f /\ channel r = Some k)
                          /\ v = group_total String.eqb channel total_amount k f)
      /\ StronglySorted (fun a b => snd b <= snd a) (by_channel f)).
Proof.
  assert (G : forall key : Row -> option string,
             let bars := sort_values_desc
                           (by_key String.ltb
                              (group_sum String.eqb key total_amount f)) in
             NoDup (map fst bars)
             /\ (forall k v, In (k, v) bars
                             <-> (exists r, In r f /\ key r = Some k)
                                 /\ v = group_total String.eqb key total_amount k f)
             /\ StronglySorted (fun a b => snd b <= snd a) bars).
  { intros key bars.
    assert (P : Permutation bars (group_sum String.eqb key total_amount f)).
    { unfold bars, sort_values_desc, by_key.
      eapply perm_trans; apply sort_by_perm. }
    split.
    { apply (Permutation_NoDup (Permutation_sym (Permutation_map fst P))).
      apply (group_sum_NoDup String.eqb String.eqb_eq). }
    split.
    { intros k v. rewrite <- (group_sum_In String.eqb String.eqb_eq).
      split; apply Permutation_in; [assumption | now apply Permutation_sym]. }
    unfold bars, sort_values_desc. apply sort_by_sorted.
    - intros y x H. apply Z.ltb_lt in H. lia.
    - intros y x H. apply Z.ltb_ge in H. lia.
    - intros a b c. lia. }
  split; [exact (G region) | exact (G channel)].
Qed.

Lemma strongly_sorted_strict {A B} (R S : A -> A -> Prop) (f : A -> B) (l : list A) :
  (forall a b, R a b -> f a <> f b -> S a b) ->
  StronglySorted R l -> NoDup (map f l) -> StronglySorted S l.
Proof.
  intros HS. induction 1 as [|x l Hs IH Hx]; simpl; intros Hnd; [constructor|].
  apply NoDup_cons_iff in Hnd. destruct Hnd as [Hn Hnd].
  constructor; [now apply IH|].
  rewrite Forall_forall in *. intros z Hz. apply HS; [now apply Hx|].
  intros E. apply Hn. rewrite E. now apply in_map.
Qed.




(** ** The weekday table in general *)

Lemma dedup_NoDup {A} (eqb : A -> A -> bool) (l : list A) :
  (forall a b, eqb a b = true <-> a = b) -> NoDup (dedup eqb l).
Proof.
  intros Heq. induction l as [|x l IH]; simpl; [constructor|].
  destruct (existsb (eqb x) l) eqn:E; [assumption|].
  constructor; [|assumption]. rewrite (dedup_In eqb x l Heq).
  intros H. apply (existsb_In eqb Heq) in H. congruence.
Qed.

(** X17. The weekday table always has the seven rows Monday to Sunday in
    this order, whatever weekdays the data holds, and a row whose weekday
    is not one of these names is in no row of the table.  Its columns are
    the hours that occur together with a weekday, each once, in increasing
    order, and every row has one cell per column. *)
Theorem heat_table_shape (f : list Row) :
  tbl_index (heat f) = wd_order
  /\ List.length (tbl_cells (heat f)) = 7%nat
  /\ Forall (fun row => List.length row = List.length (tbl_columns (heat f)))
            (tbl_cells (heat f))
  /\ StronglySorted Z.lt (tbl_columns (heat f))
  /\ (forall h, In h (tbl_columns (heat f)) <-> hour_in_data f h)
  /\ (forall w h, ~ In w wd_order -> cell (heat f) w h = None).
Proof.
  split; [reflexivity|]. split; [reflexivity|].
  split; [|split; [|split]].
  - unfold heat, reindex. cbv zeta. cbn [tbl_cells tbl_columns tbl_index fillna].
    set (cols := tbl_columns (pivot_table_sum total_amount f)).
    apply Forall_forall. intros row Hrow. apply in_map_iff in Hrow.
    destruct Hrow as [lbl [<- _]].
    assert (Hblank : List.length (repeat (@None Z) (List.length cols)) = List.length cols)
      by apply repeat_length.
    destruct (position lbl (tbl_index (pivot_table_sum total_amount f))) as [i|];
      [|exact Hblank].
    destruct (nth_in_or_default i
                (map (map (fun c => match c with Some v => Some v | None => Some 0 end))
                     (tbl_cells (pivot_table_sum total_amount f)))
                (repeat None (List.length cols))) as [Hin|E]; [|rewrite E; exact Hblank].
    apply in_map_iff in Hin. destruct Hin as [row0 [<- Hin]].
    rewrite length_map. unfold pivot_table_sum in Hin. cbn [tbl_cells] in Hin.
    apply in_map_iff in Hin. destruct Hin as [w [<- _]].
    now rewrite length_map.
  - unfold heat, reindex, pivot_table_sum. cbn [tbl_columns fillna].
    apply (strongly_sorted_strict Z.le Z.lt (fun x => x)).
    + intros a b. lia.
    + apply sort_by_sorted.
      * intros y x H. apply Z.ltb_lt in H. lia.
      * intros y x H. apply Z.ltb_ge in H. lia.
      * intros a b c. lia.
    + rewrite map_id.
      apply (Permutation_NoDup (Permutation_sym (sort_by_perm Z.ltb _))).
      apply dedup_NoDup. apply Z.eqb_eq.
  - intros h. apply pivot_columns_In.
  - intros w h Hw. unfold cell. cbn [heat reindex tbl_index].
    now rewrite (position_absent _ _ Hw).
Qed.

(** X18. The cells of the weekday table, for a weekday name and an hour
    of the table.  When the weekday occurs in the data, the cell is the
    sum of the amounts of the orders of that weekday and hour, and 0 when
    there is none.  When the weekday does not occur, the cell is null. *)
Theorem heat_cells_by_weekday (f : list Row) (w : string) (h : Z) :
  In w wd_order ->
  hour_in_data f h ->
  (weekday_in_data f w -> cell (heat f) w h = Some (Some (revenue_at w h f)))
  /\ (weekday_in_data f w -> no_row_at f w h -> cell (heat f) w h = Some (Some 0))
  /\ (~ weekday_in_data f w -> cell (heat f) w h = Some None).
Proof.
  intros Hw Hh. destruct (heat_cell f w h Hw Hh) as [Hin Hout].
  split; [exact Hin|]. split; [|exact Hout].
  intros Hd Hno. rewrite (Hin Hd). now rewrite (revenue_at_no_row f w h Hno).
Qed.

Lemma heat_cells_by_weekday_witness :
  cell (heat [Sample.monday_order; Sample.wednesday_order]) "Monday" 10
  = Some (Some (revenue_at "Monday" 10 [Sample.monday_order; Sample.wednesday_order]))
  /\ cell (heat [Sample.monday_order; Sample.wednesday_order]) "Monday" 15
     = Some (Some 0)
  /\ cell (heat [Sample.monday_order; Sample.wednesday_order]) "Friday" 15
     = Some None.
Proof.
  assert (H10 : hour_in_data [Sample.monday_order; Sample.wednesday_order] 10).
  { exists Sample.monday_order, "Monday". simpl. tauto. }
  assert (H15 : hour_in_data [Sample.monday_order; Sample.wednesday_order] 15).
  { exists Sample.wednesday_order, "Wednesday". simpl. tauto. }
  assert (Hmon : weekday_in_data [Sample.monday_order; Sample.wednesday_order] "Monday").
  { exists Sample.monday_order, 10. simpl. tauto. }
  split; [|split].
  - apply (heat_cells_by_weekday [Sample.monday_order; Sample.wednesday_order]
             "Monday" 10); [simpl; tauto | exact H10 | exact Hmon].
  - apply (heat_cells_by_weekday [Sample.monday_order; Sample.wednesday_order]
             "Monday" 15); [simpl; tauto | exact H15 | exact Hmon |].
    intros r [<-|[<-|[]]] [E1 E2]; discriminate.
  - apply (heat_cells_by_weekday [Sample.monday_order; Sample.wednesday_order]
             "Friday" 15); [simpl; tauto | exact H15 |].
    intros [r [h [[<-|[<-|[]]] [E _]]]]; discriminate.
Defined.

(** ** The raw table *)

Lemma not_older_trans (a b c : Row) : not_older a b -> not_older b c -> not_older a c.
Proof.
  unfold not_older.
  destruct (purchase_ts a), (purchase_ts b), (purchase_ts c); try tauto. lia.
Qed.

(** X19. With the toggle off there is no raw table.  With the toggle on it
    shows the 1000 most recent of the filtered orders, all of them when
    there are fewer, the most recent first: the orders shown are in
    decreasing order of timestamp and none of those left out is more
    recent than one that is shown. *)
Theorem raw_orders_most_recent (f : list Row) :
  raw_orders false f = None
  /\ exists shown rest,
       raw_orders true f = Some shown
       /\ Permutation (shown ++ rest) f
       /\ List.length shown = Nat.min 1000 (List.length f)
       /\ StronglySorted not_older shown
       /\ (forall a b, In a shown -> In b rest -> not_older a b).
Proof.
  split; [reflexivity|].
  exists (firstn 1000 (sort_purchase_ts_desc f)), (skipn 1000 (sort_purchase_ts_desc f)).
  assert (P : Permutation (sort_purchase_ts_desc f) f) by apply sort_by_perm.
  assert (Hs : StronglySorted not_older (sort_purchase_ts_desc f)).
  { apply sort_by_sorted.
    - intros y x. unfold newer, not_older.
      destruct (purchase_ts y), (purchase_ts x); try discriminate; try tauto.
      intros H. apply Z.ltb_lt in H. lia.
    - intros y x. unfold newer, not_older.
      destruct (purchase_ts y), (purchase_ts x); try discriminate; try tauto.
      intros H. apply Z.ltb_ge in H. lia.
    - apply not_older_trans. }
  rewrite <- (firstn_skipn 1000 (sort_purchase_ts_desc f)) in Hs.
  apply strongly_sorted_app in Hs. destruct Hs as [H1 [_ H12]].
  split; [reflexivity|]. split; [now rewrite firstn_skipn|].
  split; [|split; assumption].
  rewrite length_firstn. now rewrite (Permutation_length P).
Qed.
